(** * Validation middlewares of the users routes

    A shallow embedding of [be/src/middlewares/users.middlewares.ts] and of
    the request types of [be/src/models/requests/Users.requests.ts].

    Every middleware of the file is [validate(checkSchema(schema, [location]))]:
    a schema is data, an ordered list of per-field chains of standard
    validators, sanitizers and [custom] functions.  The embedding keeps that
    shape: the schemas are lists of [Step]s, a small interpreter runs them the
    way express-validator does, and the [custom] functions are written in a
    state-and-exception monad over the database and the request. *)

From stdpp Require Import base option list strings gmap.
From Stdlib Require Import ZArith Ascii String.

Open Scope string_scope.
Open Scope Z_scope.

(** ** JavaScript strings

    A string is a sequence of code units; the embedding keeps the code units
    below 256. *)

Module JS.

(** The class [\s] of regular expressions, on code units below 256:
    tab, line feed, vertical tab, form feed, carriage return, space and
    no-break space. *)
Definition isWhitespace (c : ascii) : bool :=
  match c with
  | "009"%char | "010"%char | "011"%char | "012"%char | "013"%char
  | " "%char | "160"%char => true
  | _ => false
  end.

Definition isEmpty (s : string) : bool :=
  match s with "" => true | _ => false end.

(** [str.replace(/^\s+/, '')] *)
Fixpoint ltrim (s : string) : string :=
  match s with
  | String c s' => if isWhitespace c then ltrim s' else s
  | "" => ""
  end.

(** Removal of the trailing run of whitespace. *)
Fixpoint rtrim (s : string) : string :=
  match s with
  | String c s' =>
      let r := rtrim s' in
      if isWhitespace c && isEmpty r then "" else String c r
  | "" => ""
  end.

(** validator.js [trim(str)] without a character set: [rtrim(ltrim(str))]. *)
Definition trim (s : string) : string := rtrim (ltrim s).

(** [str.split(sep)] for a separator of one code unit.  The result is never
    empty: [''.split(' ')] is [['']]. *)
Fixpoint split (sep : ascii) (s : string) : list string :=
  match s with
  | "" => [""]
  | String c s' =>
      if Ascii.eqb c sep then "" :: split sep s'
      else match split sep s' with
           | chunk :: chunks => String c chunk :: chunks
           | [] => [String c ""]
           end
  end.

(** [str.toLowerCase()] on the letters A-Z. *)
Definition lowerChar (c : ascii) : ascii :=
  let n := nat_of_ascii c in
  if (Nat.leb 65 n && Nat.leb n 90)%bool then ascii_of_nat (n + 32) else c.

Fixpoint toLowerCase (s : string) : string :=
  match s with
  | "" => ""
  | String c s' => String (lowerChar c) (toLowerCase s')
  end.

(** Some code unit of the string satisfies [p]. *)
Fixpoint any (p : ascii → bool) (s : string) : bool :=
  match s with
  | "" => false
  | String c s' => p c || any p s'
  end.

(** A word: a string that is not empty and holds no whitespace. *)
Definition word (s : string) : Prop :=
  s ≠ "" ∧ any isWhitespace s = false.

(** A value read from a request: [undefined] or a string. *)
Definition Value : Type := option string.

(** express-validator's [toString], applied to a value before every
    standard validator and sanitizer: [undefined] becomes ['']. *)
Definition toString (v : Value) : string := default "" v.

(** Truthiness: [undefined] and [''] are falsy. *)
Definition truthy (v : Value) : bool :=
  match v with
  | Some s => negb (isEmpty s)
  | None => false
  end.

(** [a || b] *)
Definition or (a b : Value) : Value := if truthy a then a else b.

End JS.

(** ** Constants *)

(** The keys of [USERS_MESSAGES] that the middlewares use.  The table lives in
    [constants/messages]; a message is identified by its key. *)
Module USERS_MESSAGES.
Inductive t : Type :=
| EMAIL_INVALID
| EMAIL_IS_REQUIRED
| EMAIL_OR_PASSWORD_INCORRECT
| EMAIL_ALREADY_EXISTS
| PASSWORD_MUST_BE_STRING
| PASSWORD_IS_REQUIRED
| PASSWORD_LENGTH
| PASSWORD_MUST_BE_STRONG
| NAME_MUST_BE_STRING
| NAME_IS_REQUIRED
| NAME_LENGTH
| CONFIRM_PASSWORD_MUST_BE_STRING
| CONFIRM_PASSWORD_IS_REQUIRED
| CONFIRM_PASSWORD_LENGTH
| CONFIRM_PASSWORD_MUST_BE_STRONG
| CONFIRM_PASSWORD_NOT_MATCH
| DATE_OF_BIRTH_MUST_BE_ISO8061
| ACCESS_TOKEN_IS_REQUIRED
| REFRESH_TOKEN_IS_REQUIRED
| REFRESH_TOKEN_IS_USED_OR_NOT_EXIST
| REFRESH_TOKEN_INVALID
| EMAIL_VERIFY_TOKEN_IS_REQUIRED
| USER_NOT_FOUND
| FORGOT_PASSWORD_TOKEN_IS_REQUIRED
| FORGOT_PASSWORD_TOKEN_IS_INVALID.
End USERS_MESSAGES.

Module HTTP_STATUS.
(** Modelled from the spec: [constants/httpStatus] is not among the sources;
    the spec gives the status of every authentication failure as HTTP 401. *)
Definition UNAUTHORIZED : Z := 401.
End HTTP_STATUS.

(** ** Data model *)

Module TokenType.
(** Modelled from the spec: the enum of [constants/enum] is not among the
    sources; the spec lists the four token kinds. *)
Inductive t : Type :=
| AccessToken
| RefreshToken
| ForgotPasswordToken
| EmailVerifyToken.
End TokenType.

(** [interface TokenPayload extends JwtPayload]: the two fields the
    interface declares. *)
Module TokenPayload.
Record t : Type := mk { user_id : string; token_type : TokenType.t }.
End TokenPayload.

(** The hexadecimal form of a MongoDB [ObjectId]. *)
Definition ObjectId : Type := string.

(** A document of the [users] collection: the fields the middlewares read. *)
Module User.
Record t : Type := mk {
  _id : ObjectId;
  email : string;
  password : string;
  forgot_password_token : option string
}.
End User.

(** A document of the [refresh_tokens] collection. *)
Module RefreshToken.
Record t : Type := mk { token : string; user_id : ObjectId }.
End RefreshToken.

Record Database : Type := mkDatabase {
  users : list User.t;
  refreshTokens : list RefreshToken.t
}.

(** *** Request bodies ([Users.requests.ts]) *)

Module RegisterRequestBody.
Record t : Type := mk {
  name : string;
  email : string;
  password : string;
  confirm_password : string;
  date_of_birth : string
}.
End RegisterRequestBody.

Module LoginRequestBody.
Record t : Type := mk { email : string; password : string }.
End LoginRequestBody.

Module EmailVerifyRequestBody.
Record t : Type := mk { email_verify_token : string }.
End EmailVerifyRequestBody.

Module LogoutRequestBody.
Record t : Type := mk { refresh_token : string }.
End LogoutRequestBody.

Module ForgotPassWordRequestBody.
Record t : Type := mk { email : string }.
End ForgotPassWordRequestBody.

Module VerifyForgotPassWordTokenRequestBody.
Record t : Type := mk { forgot_password_token : string }.
End VerifyForgotPassWordTokenRequestBody.

(** ** Thrown values *)

(** A message is an entry of [USERS_MESSAGES] or the text of a library
    error. *)
Inductive Message : Type :=
| Msg (key : USERS_MESSAGES.t)
| Text (text : string).

(** What the [custom] functions throw or let escape: [ErrorWithStatus],
    jsonwebtoken's [JsonWebTokenError] (with its subclasses for expired and
    not yet valid tokens) and any other [Error]. *)
Inductive Thrown : Type :=
| ErrorWithStatus (message : Message) (status : Z)
| JsonWebTokenError (message : string)
| Error (message : Message).

(** [error.message] *)
Definition message_of (e : Thrown) : Message :=
  match e with
  | ErrorWithStatus m _ => m
  | JsonWebTokenError m => Text m
  | Error m => m
  end.

(** [error instanceof JsonWebTokenError] *)
Definition instanceof_JsonWebTokenError (e : Thrown) : bool :=
  match e with
  | JsonWebTokenError _ => true
  | _ => false
  end.

(** ** Requests and the world a middleware runs in *)

(** A request body as a JSON object: the value found under a field name,
    and the body with a string written under a field name. *)
Class JsonObject (Body : Type) : Type := {
  get_field : Body → string → JS.Value;
  set_field : Body → string → string → Body
}.

#[global] Instance RegisterRequestBody_json : JsonObject RegisterRequestBody.t := {|
  get_field b field :=
    if String.eqb field "name" then Some (RegisterRequestBody.name b)
    else if String.eqb field "email" then Some (RegisterRequestBody.email b)
    else if String.eqb field "password" then Some (RegisterRequestBody.password b)
    else if String.eqb field "confirm_password"
         then Some (RegisterRequestBody.confirm_password b)
    else if String.eqb field "date_of_birth"
         then Some (RegisterRequestBody.date_of_birth b)
    else None;
  set_field b field v :=
    let name := RegisterRequestBody.name b in
    let email := RegisterRequestBody.email b in
    let password := RegisterRequestBody.password b in
    let confirm_password := RegisterRequestBody.confirm_password b in
    let date_of_birth := RegisterRequestBody.date_of_birth b in
    if String.eqb field "name"
    then RegisterRequestBody.mk v email password confirm_password date_of_birth
    else if String.eqb field "email"
    then RegisterRequestBody.mk name v password confirm_password date_of_birth
    else if String.eqb field "password"
    then RegisterRequestBody.mk name email v confirm_password date_of_birth
    else if String.eqb field "confirm_password"
    then RegisterRequestBody.mk name email password v date_of_birth
    else if String.eqb field "date_of_birth"
    then RegisterRequestBody.mk name email password confirm_password v
    else b
|}.

#[global] Instance LoginRequestBody_json : JsonObject LoginRequestBody.t := {|
  get_field b field :=
    if String.eqb field "email" then Some (LoginRequestBody.email b)
    else if String.eqb field "password" then Some (LoginRequestBody.password b)
    else None;
  set_field b field v :=
    if String.eqb field "email"
    then LoginRequestBody.mk v (LoginRequestBody.password b)
    else if String.eqb field "password"
    then LoginRequestBody.mk (LoginRequestBody.email b) v
    else b
|}.

#[global] Instance EmailVerifyRequestBody_json : JsonObject EmailVerifyRequestBody.t := {|
  get_field b field :=
    if String.eqb field "email_verify_token"
    then Some (EmailVerifyRequestBody.email_verify_token b)
    else None;
  set_field b field v :=
    if String.eqb field "email_verify_token" then EmailVerifyRequestBody.mk v
    else b
|}.

#[global] Instance LogoutRequestBody_json : JsonObject LogoutRequestBody.t := {|
  get_field b field :=
    if String.eqb field "refresh_token"
    then Some (LogoutRequestBody.refresh_token b)
    else None;
  set_field b field v :=
    if String.eqb field "refresh_token" then LogoutRequestBody.mk v else b
|}.

#[global] Instance ForgotPassWordRequestBody_json :
  JsonObject ForgotPassWordRequestBody.t := {|
  get_field b field :=
    if String.eqb field "email" then Some (ForgotPassWordRequestBody.email b)
    else None;
  set_field b field v :=
    if String.eqb field "email" then ForgotPassWordRequestBody.mk v else b
|}.

#[global] Instance VerifyForgotPassWordTokenRequestBody_json :
  JsonObject VerifyForgotPassWordTokenRequestBody.t := {|
  get_field b field :=
    if String.eqb field "forgot_password_token"
    then Some (VerifyForgotPassWordTokenRequestBody.forgot_password_token b)
    else None;
  set_field b field v :=
    if String.eqb field "forgot_password_token"
    then VerifyForgotPassWordTokenRequestBody.mk v
    else b
|}.

(** A body nobody reads (routes that only check a header). *)
#[global] Instance unit_json : JsonObject unit := {|
  get_field _ _ := None;
  set_field b _ _ := b
|}.

Section Pipeline.

Context {Body : Type} `{!JsonObject Body}.

(** The express request: headers (names in lower case, as Node delivers
    them), the parsed body, and the properties the middlewares attach. *)
Record Request : Type := mkRequest {
  headers : gmap string string;
  body : Body;
  user : option User.t;
  decoded_authorization : option TokenPayload.t;
  decoded_refresh_token : option TokenPayload.t;
  decoded_email_verify_token : option TokenPayload.t
}.

Definition set_user (u : User.t) (r : Request) : Request :=
  mkRequest (headers r) (body r) (Some u) (decoded_authorization r)
            (decoded_refresh_token r) (decoded_email_verify_token r).

Definition set_decoded_authorization (p : TokenPayload.t) (r : Request) : Request :=
  mkRequest (headers r) (body r) (user r) (Some p)
            (decoded_refresh_token r) (decoded_email_verify_token r).

Definition set_decoded_refresh_token (p : TokenPayload.t) (r : Request) : Request :=
  mkRequest (headers r) (body r) (user r) (decoded_authorization r)
            (Some p) (decoded_email_verify_token r).

Definition set_decoded_email_verify_token (p : TokenPayload.t) (r : Request) : Request :=
  mkRequest (headers r) (body r) (user r) (decoded_authorization r)
            (decoded_refresh_token r) (Some p).

(** The persisted state and the request in flight. *)
Record World : Type := mkWorld { database : Database; req : Request }.

(** *** The monad of the [custom] functions

    A computation reads and writes the world and either returns or throws;
    what was written before a throw stays written. *)
Definition M (A : Type) : Type := World → (Thrown + A) * World.

Definition throw {A : Type} (e : Thrown) : M A := λ w, (inl e, w).

(** [try { m } catch (error) { handler error }] *)
Definition try_catch {A : Type} (m : M A) (handler : Thrown → M A) : M A :=
  λ w, match m w with
       | (inl e, w') => handler e w'
       | (inr a, w') => (inr a, w')
       end.

(** [await] of a promise that settles without touching the world. *)
Definition await {A : Type} (settled : Thrown + A) : M A := λ w, (settled, w).

Definition get_req : M Request := λ w, (inr (req w), w).

(** [req.property = value] *)
Definition assign (f : Request → Request) : M unit :=
  λ w, (inr tt, mkWorld (database w) (f (req w))).

(** [databaseService.users.findOne(filter)]: the first document that
    matches, or [null]. *)
Definition users_findOne (filter : User.t → bool) : M (option User.t) :=
  λ w, (inr (find filter (users (database w))), w).

(** [databaseService.refreshTokens.findOne(filter)] *)
Definition refreshTokens_findOne (filter : RefreshToken.t → bool)
  : M (option RefreshToken.t) :=
  λ w, (inr (find filter (refreshTokens (database w))), w).

End Pipeline.

Arguments Request : clear implicits.
Arguments World : clear implicits.
Arguments M : clear implicits.

#[global] Instance M_ret {Body : Type} : MRet (M Body) :=
  λ A a w, (inr a, w).

#[global] Instance M_bind {Body : Type} : MBind (M Body) :=
  λ A B f m w,
    match m w with
    | (inl e, w') => (inl e, w')
    | (inr a, w') => f a w'
    end.

(** ** express-validator *)

(** What a failed check records as [msg]: the [errorMessage] of a standard
    validator or the [message] of a thrown [Error], or the thrown
    [ErrorWithStatus] itself (its status is what the response carries). *)
Inductive ErrorMsg : Type :=
| MessageOnly (message : Message)
| WithStatus (message : Message) (status : Z).

Definition msg_of_thrown (e : Thrown) : ErrorMsg :=
  match e with
  | ErrorWithStatus m s => WithStatus m s
  | JsonWebTokenError m => MessageOnly (Text m)
  | Error m => MessageOnly m
  end.

Record ValidationError : Type := mkValidationError {
  path : string;
  msg : ErrorMsg
}.

Inductive Location : Type := InBody | InHeaders.

Section Schema.

Context {Body : Type} `{!JsonObject Body}.

(** One entry of a field of a schema. *)
Inductive Step : Type :=
| validator (test : JS.Value → bool) (errorMessage : USERS_MESSAGES.t)
| sanitizer (f : JS.Value → JS.Value)
| custom (options : JS.Value → M Body bool).

Record Field : Type := mkField { field_path : string; chain : list Step }.

(** What a standard validator records for a value: nothing when the test
    passes, else one error with its [errorMessage]. *)
Definition failed (field : string) (test : JS.Value → bool)
           (errorMessage : USERS_MESSAGES.t) (value : JS.Value)
  : list ValidationError :=
  if test value then []
  else [mkValidationError field (MessageOnly (Msg errorMessage))].

(** The path of a field at a location: header names are selected, reported
    and written in lower case. *)
Definition instance_path (location : Location) (field : string) : string :=
  match location with
  | InBody => field
  | InHeaders => JS.toLowerCase field
  end.

(** The value of a path at a location. *)
Definition select (location : Location) (path : string) (r : Request Body)
  : JS.Value :=
  match location with
  | InBody => get_field (body r) path
  | InHeaders => headers r !! path
  end.

(** [_.set(req[location], path, value)]: after a step, a value that differs
    from the one on the request is written back to the request.  Writing the
    value the request already holds changes nothing; no sanitizer of the
    file yields [undefined]. *)
Definition write (location : Location) (path : string) (value : JS.Value)
           (w : World Body) : World Body :=
  match value with
  | None => w
  | Some s =>
      let r := req w in
      mkWorld (database w)
        match location with
        | InBody =>
            mkRequest (headers r) (set_field (body r) path s) (user r)
                      (decoded_authorization r) (decoded_refresh_token r)
                      (decoded_email_verify_token r)
        | InHeaders =>
            mkRequest (<[path := s]> (headers r)) (body r) (user r)
                      (decoded_authorization r) (decoded_refresh_token r)
                      (decoded_email_verify_token r)
        end
  end.

(** The steps of a chain run in the order of the schema, none bails out:
    a failed validator records its error and the chain goes on; a sanitizer
    replaces the value the later steps see and the value on the request; a
    [custom] function fails when it throws.  Errors are recorded under the
    path of the field. *)
Fixpoint runChain (location : Location) (path : string) (steps : list Step)
         (value : JS.Value)
  : World Body → list ValidationError * World Body :=
  match steps with
  | [] => λ w, ([], w)
  | validator test errorMessage :: rest =>
      λ w,
        let '(errors, w') := runChain location path rest value w in
        ((failed path test errorMessage value ++ errors)%list, w')
  | sanitizer f :: rest =>
      λ w,
        runChain location path rest (f value) (write location path (f value) w)
  | custom options :: rest =>
      λ w,
        match options value w with
        | (inr _, w1) => runChain location path rest value w1
        | (inl e, w1) =>
            let '(errors, w2) := runChain location path rest value w1 in
            (mkValidationError path (msg_of_thrown e) :: errors, w2)
        end
  end.

(** [validate(checkSchema(schema, [location]))]: the errors of all fields;
    the request passes when there is none.  The errors of one field are in
    the order of its chain.  The fields are taken in the order of the schema:
    the library runs their chains side by side and appends the errors of a
    field when its chain is done, so the order of the groups of two fields in
    its array may differ from the one here; the groups themselves, and the
    world after the run, do not depend on it, since no chain of the file
    reads a field another chain sanitizes. *)
Fixpoint checkSchema (schema : list Field) (location : Location)
  : World Body → list ValidationError * World Body :=
  match schema with
  | [] => λ w, ([], w)
  | f :: fields =>
      λ w,
        let path := instance_path location (field_path f) in
        let '(errors, w1) :=
          runChain location path (chain f) (select location path (req w)) w in
        let '(errors', w2) := checkSchema fields location w1 in
        ((errors ++ errors')%list, w2)
  end.

End Schema.

Arguments Step : clear implicits.
Arguments Field : clear implicits.

(** ** What the middlewares import

    The helpers of the repository that are not among the sources
    ([utils/crypto], [utils/jwt]), the library functions they call, and the
    secrets of [process.env]. *)
Class Imports : Type := {
  (** [hashPassword(password)] *)
  hashPassword : string → string;
  (** [verifyToken({ token, secret })]: the decoded payload, or what the
      promise rejects with. *)
  verifyToken : string → string → Thrown + TokenPayload.t;
  (** [new ObjectId(hex)], which throws on a malformed identifier. *)
  new_ObjectId : string → Thrown + ObjectId;
  (** validator.js [isEmail(str)] *)
  isEmail : string → bool;
  (** validator.js [isStrongPassword(str, options)] with the options every
      schema of the file passes: [minLength: 6] and one lower case letter,
      one upper case letter, one digit and one symbol at least. *)
  isStrongPassword : string → bool;
  (** validator.js [isISO8601(str, { strict: true, strictSeparator: true })] *)
  isISO8601 : string → bool;
  JWT_SECRET_ACCESS_TOKEN : string;
  JWT_SECRET_REFRESH_TOKEN : string;
  JWT_SECRET_EMAIL_VERIFY_TOKEN : string;
  JWT_SECRET_FORGOT_PASSWORD_TOKEN : string
}.

(** ** The standard validators and sanitizers the schemas use *)

Module Std.

Definition isString (v : JS.Value) : bool :=
  match v with Some _ => true | None => false end.

(** [notEmpty]: [.not().isEmpty()] *)
Definition notEmpty (v : JS.Value) : bool :=
  negb (JS.isEmpty (JS.toString v)).

(** [isLength({ min, max })] *)
Definition isLength (min max : nat) (v : JS.Value) : bool :=
  let len := String.length (JS.toString v) in
  (Nat.leb min len && Nat.leb len max)%bool.

(** [trim: true] *)
Definition trim (v : JS.Value) : JS.Value := Some (JS.trim (JS.toString v)).

End Std.

Import USERS_MESSAGES HTTP_STATUS.

Section Middlewares.

Context `{Imports}.

Definition isEmail_ (v : JS.Value) : bool := isEmail (JS.toString v).
Definition isStrongPassword_ (v : JS.Value) : bool :=
  isStrongPassword (JS.toString v).
Definition isISO8601_ (v : JS.Value) : bool := isISO8601 (JS.toString v).

(** *** loginValidator *)

Definition loginValidator_email_custom (value : JS.Value)
  : M LoginRequestBody.t bool :=
  r ← get_req;
  user ← users_findOne
    (λ u, bool_decide
            (Some (User.email u) = value
             ∧ User.password u = hashPassword (LoginRequestBody.password (body r))));
  match user with
  | None => throw (Error (Msg EMAIL_OR_PASSWORD_INCORRECT))
  | Some user =>
      _ ← assign (set_user user);
      mret true
  end.

Definition loginSchema : list (Field LoginRequestBody.t) :=
  [ mkField "email"
      [ validator isEmail_ EMAIL_INVALID;
        validator Std.notEmpty EMAIL_IS_REQUIRED;
        sanitizer Std.trim;
        custom loginValidator_email_custom ];
    mkField "password"
      [ validator Std.isString PASSWORD_MUST_BE_STRING;
        validator Std.notEmpty PASSWORD_IS_REQUIRED;
        validator (Std.isLength 6 50) PASSWORD_LENGTH;
        validator isStrongPassword_ PASSWORD_MUST_BE_STRONG ] ].

Definition loginValidator := checkSchema loginSchema InBody.

(** *** registerValidator *)

(** Modelled from the spec: [userService.checkEmailExist] of
    [services/users.services] is not among the sources.  The spec gives the
    store a [findUserByEmail] lookup that matches exactly; the helper is
    that lookup, turned into a boolean. *)
Definition checkEmailExist {Body : Type} (email : JS.Value) : M Body bool :=
  user ← users_findOne (λ u, bool_decide (Some (User.email u) = email));
  mret (match user with Some _ => true | None => false end).

Definition registerValidator_email_custom (value : JS.Value)
  : M RegisterRequestBody.t bool :=
  isExist ← checkEmailExist value;
  if isExist : bool then throw (Error (Msg EMAIL_ALREADY_EXISTS))
  else mret true.

Definition registerValidator_confirm_password_custom (value : JS.Value)
  : M RegisterRequestBody.t bool :=
  r ← get_req;
  if bool_decide (value ≠ Some (RegisterRequestBody.password (body r)))
  then throw (Error (Msg CONFIRM_PASSWORD_NOT_MATCH))
  else mret true.

Definition registerSchema : list (Field RegisterRequestBody.t) :=
  [ mkField "name"
      [ validator Std.isString NAME_MUST_BE_STRING;
        validator Std.notEmpty NAME_IS_REQUIRED;
        validator (Std.isLength 1 100) NAME_LENGTH;
        sanitizer Std.trim ];
    mkField "email"
      [ validator isEmail_ EMAIL_INVALID;
        validator Std.notEmpty EMAIL_IS_REQUIRED;
        sanitizer Std.trim;
        custom registerValidator_email_custom ];
    mkField "password"
      [ validator Std.isString PASSWORD_MUST_BE_STRING;
        validator Std.notEmpty PASSWORD_IS_REQUIRED;
        validator (Std.isLength 6 50) PASSWORD_LENGTH;
        validator isStrongPassword_ PASSWORD_MUST_BE_STRONG ];
    mkField "confirm_password"
      [ validator Std.isString CONFIRM_PASSWORD_MUST_BE_STRING;
        validator Std.notEmpty CONFIRM_PASSWORD_IS_REQUIRED;
        validator (Std.isLength 6 50) CONFIRM_PASSWORD_LENGTH;
        validator isStrongPassword_ CONFIRM_PASSWORD_MUST_BE_STRONG;
        custom registerValidator_confirm_password_custom ];
    mkField "date_of_birth"
      [ validator isISO8601_ DATE_OF_BIRTH_MUST_BE_ISO8061 ] ].

Definition registerValidator := checkSchema registerSchema InBody.

(** *** accessTokenValidator *)

(** [(value || "").split(" ")[1]] *)
Definition access_token_of (value : JS.Value) : JS.Value :=
  JS.split " " (JS.toString (JS.or value (Some ""))) !! 1%nat.

Definition accessTokenValidator_custom {Body : Type} (value : JS.Value)
  : M Body bool :=
  let access_token := access_token_of value in
  if negb (JS.truthy access_token)
  then throw (ErrorWithStatus (Msg ACCESS_TOKEN_IS_REQUIRED) UNAUTHORIZED)
  else
    _ ← try_catch
          (decoded_authorization ←
             await (verifyToken (JS.toString access_token) JWT_SECRET_ACCESS_TOKEN);
           assign (set_decoded_authorization decoded_authorization))
          (λ error, throw (ErrorWithStatus (message_of error) UNAUTHORIZED));
    mret true.

Definition accessTokenSchema {Body : Type} : list (Field Body) :=
  [ mkField "Authorization"
      [ sanitizer Std.trim;
        custom accessTokenValidator_custom ] ].

Definition accessTokenValidator {Body : Type} `{!JsonObject Body} :=
  checkSchema (Body := Body) accessTokenSchema InHeaders.

(** *** refreshTokenValidator *)

(** The two promises of [Promise.all] are the verification, which does not
    touch the world, and a lookup that does not reject: the pair rejects
    exactly when the verification does, with its error. *)
Definition refreshTokenValidator_custom (value : JS.Value)
  : M LogoutRequestBody.t bool :=
  if negb (JS.truthy value)
  then throw (ErrorWithStatus (Msg REFRESH_TOKEN_IS_REQUIRED) UNAUTHORIZED)
  else
    _ ← try_catch
          (decoded_refresh_token ←
             await (verifyToken (JS.toString value) JWT_SECRET_REFRESH_TOKEN);
           refresh_token ←
             refreshTokens_findOne
               (λ t, bool_decide (Some (RefreshToken.token t) = value));
           match refresh_token with
           | None =>
               throw (ErrorWithStatus (Msg REFRESH_TOKEN_IS_USED_OR_NOT_EXIST)
                                      UNAUTHORIZED)
           | Some _ => assign (set_decoded_refresh_token decoded_refresh_token)
           end)
          (λ error,
             if instanceof_JsonWebTokenError error
             then throw (ErrorWithStatus (Msg REFRESH_TOKEN_INVALID) UNAUTHORIZED)
             else throw error);
    mret true.

Definition refreshTokenSchema : list (Field LogoutRequestBody.t) :=
  [ mkField "refresh_token"
      [ sanitizer Std.trim;
        custom refreshTokenValidator_custom ] ].

Definition refreshTokenValidator := checkSchema refreshTokenSchema InBody.

(** *** emailVerifyTokenValidator *)

Definition emailVerifyTokenValidator_custom (value : JS.Value)
  : M EmailVerifyRequestBody.t bool :=
  if negb (JS.truthy value)
  then throw (ErrorWithStatus (Msg EMAIL_VERIFY_TOKEN_IS_REQUIRED) UNAUTHORIZED)
  else
    _ ← try_catch
          (decoded_email_verify_token ←
             await (verifyToken (JS.toString value) JWT_SECRET_EMAIL_VERIFY_TOKEN);
           assign (set_decoded_email_verify_token decoded_email_verify_token))
          (λ error,
             if instanceof_JsonWebTokenError error
             then throw (ErrorWithStatus (Msg REFRESH_TOKEN_INVALID) UNAUTHORIZED)
             else throw error);
    mret true.

Definition emailVerifyTokenSchema : list (Field EmailVerifyRequestBody.t) :=
  [ mkField "email_verify_token"
      [ sanitizer Std.trim;
        custom emailVerifyTokenValidator_custom ] ].

Definition emailVerifyTokenValidator :=
  checkSchema emailVerifyTokenSchema InBody.

(** *** forgotPassWordValidator *)

Definition forgotPassWordValidator_email_custom (value : JS.Value)
  : M ForgotPassWordRequestBody.t bool :=
  user ← users_findOne (λ u, bool_decide (Some (User.email u) = value));
  match user with
  | None => throw (Error (Msg USER_NOT_FOUND))
  | Some user =>
      _ ← assign (set_user user);
      mret true
  end.

Definition forgotPassWordSchema : list (Field ForgotPassWordRequestBody.t) :=
  [ mkField "email"
      [ validator isEmail_ EMAIL_INVALID;
        validator Std.notEmpty EMAIL_IS_REQUIRED;
        sanitizer Std.trim;
        custom forgotPassWordValidator_email_custom ] ].

Definition forgotPassWordValidator := checkSchema forgotPassWordSchema InBody.

(** *** verifyForgotPasswordTokenValidator *)

(** [user.forgot_password_token !== value]: the stored token is [null] or a
    string, the value a string. *)
Definition verifyForgotPasswordTokenValidator_custom (value : JS.Value)
  : M VerifyForgotPassWordTokenRequestBody.t bool :=
  if negb (JS.truthy value)
  then throw (ErrorWithStatus (Msg FORGOT_PASSWORD_TOKEN_IS_REQUIRED) UNAUTHORIZED)
  else
    _ ← try_catch
          (decoded_forgot_password_token ←
             await (verifyToken (JS.toString value)
                                JWT_SECRET_FORGOT_PASSWORD_TOKEN);
           let user_id := TokenPayload.user_id decoded_forgot_password_token in
           oid ← await (new_ObjectId user_id);
           user ← users_findOne (λ u, bool_decide (User._id u = oid));
           match user with
           | None => throw (ErrorWithStatus (Msg USER_NOT_FOUND) UNAUTHORIZED)
           | Some user =>
               if bool_decide (User.forgot_password_token user ≠ value)
               then throw (ErrorWithStatus (Msg FORGOT_PASSWORD_TOKEN_IS_INVALID)
                                           UNAUTHORIZED)
               else mret tt
           end)
          (λ error,
             if instanceof_JsonWebTokenError error
             then throw (ErrorWithStatus (Msg REFRESH_TOKEN_INVALID) UNAUTHORIZED)
             else throw error);
    mret true.

Definition verifyForgotPasswordTokenSchema
  : list (Field VerifyForgotPassWordTokenRequestBody.t) :=
  [ mkField "forgot_password_token"
      [ sanitizer Std.trim;
        custom verifyForgotPasswordTokenValidator_custom ] ].

Definition verifyForgotPasswordTokenValidator :=
  checkSchema verifyForgotPasswordTokenSchema InBody.

End Middlewares.

(** ** Outcomes *)

(** What is recorded for an error that reaches the [catch] clause shared by
    the refresh, email-verify and forgot-password middlewares. *)
Definition caught (e : Thrown) : ErrorMsg :=
  if instanceof_JsonWebTokenError e
  then WithStatus (Msg REFRESH_TOKEN_INVALID) UNAUTHORIZED
  else msg_of_thrown e.

Section Outcomes.

Context {Body : Type}.

(** A computation that leaves the persisted state as it found it. *)
Definition read_only {A : Type} (m : M Body A) : Prop :=
  ∀ w, database (m w).2 = database w.

(** A step of a schema whose [custom] function, if it is one, is read-only. *)
Definition step_read_only (step : Step Body) : Prop :=
  match step with
  | custom options => ∀ value, read_only (options value)
  | _ => True
  end.

(** The request passes the middleware: no error was recorded. *)
Definition accepted (r : list ValidationError * World Body) : Prop :=
  r.1 = [].

(** The middleware recorded exactly one error, an [ErrorWithStatus] with
    this message and status, on this field. *)
Definition rejected_with (field : string) (message : USERS_MESSAGES.t)
           (status : Z) (r : list ValidationError * World Body) : Prop :=
  r.1 = [mkValidationError field (WithStatus (Msg message) status)].

(** The errors recorded on one field. *)
Definition errors_of (field : string) (errors : list ValidationError)
  : list ErrorMsg :=
  msg <$> filter (λ e, path e = field) errors.

End Outcomes.

(** A refresh token string is in the store. *)
Definition stored_refresh_token (db : Database) (token : string) : Prop :=
  ∃ t, t ∈ refreshTokens db ∧ RefreshToken.token t = token.

(** Some user has this email and this password hash. *)
Definition credentials_match (db : Database) (email hash : string) : Prop :=
  ∃ u, u ∈ users db ∧ User.email u = email ∧ User.password u = hash.

(** Some user has this email. *)
Definition email_exists (db : Database) (email : string) : Prop :=
  ∃ u, u ∈ users db ∧ User.email u = email.

Section Readings.

Context `{Imports}.

(** Verification of a token under a secret succeeds. *)
Definition verifies (token secret : string) : Prop :=
  ∃ payload, verifyToken token secret = inr payload.

(** Cryptographic verification of a token under a secret fails: the codec
    rejects it with a [JsonWebTokenError]. *)
Definition verification_fails (token secret : string) : Prop :=
  ∃ m, verifyToken token secret = inl (JsonWebTokenError m).

(** The token a body field holds once the [trim] sanitizer has run: the
    string the [custom] function of the field receives. *)
Definition submitted_refresh_token (w : World LogoutRequestBody.t) : string :=
  JS.trim (LogoutRequestBody.refresh_token (body (req w))).

Definition submitted_email_verify_token (w : World EmailVerifyRequestBody.t)
  : string :=
  JS.trim (EmailVerifyRequestBody.email_verify_token (body (req w))).

Definition submitted_forgot_password_token
           (w : World VerifyForgotPassWordTokenRequestBody.t) : string :=
  JS.trim (VerifyForgotPassWordTokenRequestBody.forgot_password_token
             (body (req w))).

(** The [Authorization] header of a request, [''] when there is none. *)
Definition authorization_header {Body : Type} (w : World Body) : string :=
  JS.toString (headers (req w) !! "authorization").

(** The lookup of [loginValidator]: the first user with the trimmed email
    and the hash of the password of the body. *)
Definition login_lookup (w : World LoginRequestBody.t) : option User.t :=
  find (λ u, bool_decide
               (Some (User.email u)
                = Some (JS.trim (LoginRequestBody.email (body (req w))))
                ∧ User.password u
                  = hashPassword (LoginRequestBody.password (body (req w)))))
       (users (database w)).

(** What [accessTokenValidator] does with a credential it attempts, in the
    world [w] it has reached (the request holds the trimmed header by then):
    verify it under the access secret, attach the payload or record the
    message of the error with status 401, under the lower-case path of the
    header. *)
Definition verify_access_token {Body : Type} (access_token : string)
           (w : World Body) : list ValidationError * World Body :=
  match verifyToken access_token JWT_SECRET_ACCESS_TOKEN with
  | inl e =>
      ([mkValidationError "authorization"
          (WithStatus (message_of e) UNAUTHORIZED)], w)
  | inr decoded =>
      ([], mkWorld (database w) (set_decoded_authorization decoded (req w)))
  end.

End Readings.

(** The same world with another body submitted. *)
Definition with_body {Body Body' : Type} (b : Body') (w : World Body)
  : World Body' :=
  mkWorld (database w)
          (mkRequest (headers (req w)) b (user (req w))
                     (decoded_authorization (req w))
                     (decoded_refresh_token (req w))
                     (decoded_email_verify_token (req w))).

(** The same world with this [Authorization] header. *)
Definition with_authorization {Body : Type} (header : string) (w : World Body)
  : World Body :=
  mkWorld (database w)
          (mkRequest (<["authorization" := header]> (headers (req w)))
                     (body (req w)) (user (req w))
                     (decoded_authorization (req w))
                     (decoded_refresh_token (req w))
                     (decoded_email_verify_token (req w))).

(** Some user has this identifier. *)
Definition user_exists (db : Database) (oid : ObjectId) : Prop :=
  ∃ u, u ∈ users db ∧ User._id u = oid.

(** ** The token codec *)

(** Modelled from the spec: the issuing half of the codec ([signToken] of
    [utils/jwt]) is not among the sources.  The contract is the one the spec
    gives to TokenCodec: a token verifies under the secret it was issued
    with and yields the payload it was issued for; under any other secret
    verification fails, with an error of the codec; and a token is a compact
    serialisation, free of surrounding whitespace. *)
Record TokenCodec `{Imports} (signToken : TokenPayload.t → string → string)
  : Prop := mkTokenCodec {
  verify_signed :
    ∀ payload secret, verifyToken (signToken payload secret) secret = inr payload;
  verify_other_secret :
    ∀ payload secret secret',
      secret ≠ secret' →
      ∃ m, verifyToken (signToken payload secret) secret' = inl (JsonWebTokenError m);
  signed_compact :
    ∀ payload secret, JS.trim (signToken payload secret) = signToken payload secret
}.

(** ** The words of the specification about the bearer credential *)

Module Spec.

(** The pieces of a string between characters that satisfy [sep]. *)
Fixpoint pieces (sep : ascii → bool) (s : string) : list string :=
  match s with
  | "" => [""]
  | String c s' =>
      if sep c then "" :: pieces sep s'
      else match pieces sep s' with
           | chunk :: chunks => String c chunk :: chunks
           | [] => [String c ""]
           end
  end.

(** The whitespace-separated chunks of a string: the maximal runs of
    characters that are not whitespace. *)
Definition whitespace_chunks (s : string) : list string :=
  filter (λ chunk, chunk ≠ "") (pieces JS.isWhitespace s).

(** The second whitespace-separated chunk of the trimmed header. *)
Definition second_chunk (header : JS.Value) : JS.Value :=
  whitespace_chunks (JS.trim (JS.toString header)) !! 1%nat.

End Spec.

(** ** A concrete instance of the imports

    A small codec and stand-ins for the library predicates, to run the
    middlewares on examples. *)

Module Sample.

(** Half a code unit as one of the sixteen characters from [@] to [O]. *)
Definition nibble (a b c d : bool) : ascii :=
  Ascii a b c d false false true false.

Fixpoint encode (s : string) : string :=
  match s with
  | "" => ""
  | String (Ascii a b c d e f g h) s' =>
      String (nibble a b c d) (String (nibble e f g h) (encode s'))
  end.

Fixpoint decode (s : string) : option string :=
  match s with
  | "" => Some ""
  | String (Ascii a b c d false false true false)
           (String (Ascii e f g h false false true false) s') =>
      String (Ascii a b c d e f g h) <$> decode s'
  | _ => None
  end.

Definition kind_char (kind : TokenType.t) : ascii :=
  match kind with
  | TokenType.AccessToken => "a"
  | TokenType.RefreshToken => "r"
  | TokenType.ForgotPasswordToken => "f"
  | TokenType.EmailVerifyToken => "e"
  end%char.

Definition kind_of_char (c : ascii) : option TokenType.t :=
  if Ascii.eqb c "a" then Some TokenType.AccessToken
  else if Ascii.eqb c "r" then Some TokenType.RefreshToken
  else if Ascii.eqb c "f" then Some TokenType.ForgotPasswordToken
  else if Ascii.eqb c "e" then Some TokenType.EmailVerifyToken
  else None.

(** A token: the kind, the encoded subject, a dot, the encoded secret in
    the place of the signature. *)
Definition sign (payload : TokenPayload.t) (secret : string) : string :=
  String (kind_char (TokenPayload.token_type payload))
         (encode (TokenPayload.user_id payload) ++ String "." (encode secret)).

Definition verify (token secret : string) : Thrown + TokenPayload.t :=
  match token with
  | "" => inl (JsonWebTokenError "jwt must be provided")
  | String k rest =>
      match kind_of_char k, JS.split "." rest with
      | Some kind, [subject; signature] =>
          if String.eqb signature (encode secret)
          then match decode subject with
               | Some user_id => inr (TokenPayload.mk user_id kind)
               | None => inl (JsonWebTokenError "invalid token")
               end
          else inl (JsonWebTokenError "invalid signature")
      | _, _ => inl (JsonWebTokenError "jwt malformed")
      end
  end.

Definition between (lo hi : nat) (c : ascii) : bool :=
  (Nat.leb lo (nat_of_ascii c) && Nat.leb (nat_of_ascii c) hi)%bool.

Definition strong (s : string) : bool :=
  (Nat.leb 6 (String.length s)
   && JS.any (between 97 122) s && JS.any (between 65 90) s
   && JS.any (between 48 57) s
   && JS.any (λ c, between 33 47 c || between 58 64 c) s)%bool.

Definition objectId (hex : string) : Thrown + ObjectId :=
  if Nat.eqb (String.length hex) 24 then inr hex
  else inl (Error (Text "input must be a 24 character hex string")).

Definition imports : Imports := {|
  hashPassword := λ password, "sha256:" ++ password;
  verifyToken := verify;
  new_ObjectId := objectId;
  isEmail := JS.any (Ascii.eqb "@");
  isStrongPassword := strong;
  isISO8601 := λ s, Nat.eqb (String.length s) 10;
  JWT_SECRET_ACCESS_TOKEN := "access-secret";
  JWT_SECRET_REFRESH_TOKEN := "refresh-secret";
  JWT_SECRET_EMAIL_VERIFY_TOKEN := "email-verify-secret";
  JWT_SECRET_FORGOT_PASSWORD_TOKEN := "forgot-password-secret"
|}.

Definition alice_id : ObjectId := "64b7f0c2a1d3e4f5a6b7c8d9".

(** A request with nothing attached yet. *)
Definition request {Body : Type} (headers : gmap string string) (body : Body)
  : Request Body :=
  mkRequest headers body None None None None.

(** Tokens of the user [alice_id], each issued under the secret of its
    kind. *)
Definition access_token : string :=
  sign (TokenPayload.mk alice_id TokenType.AccessToken) "access-secret".

Definition refresh_token : string :=
  sign (TokenPayload.mk alice_id TokenType.RefreshToken) "refresh-secret".

Definition email_verify_token : string :=
  sign (TokenPayload.mk alice_id TokenType.EmailVerifyToken)
       "email-verify-secret".

Definition forgot_password_token : string :=
  sign (TokenPayload.mk alice_id TokenType.ForgotPasswordToken)
       "forgot-password-secret".

(** A token that carries the kind of an email-verify token and is issued
    under the refresh secret. *)
Definition mislabelled_token : string :=
  sign (TokenPayload.mk alice_id TokenType.EmailVerifyToken) "refresh-secret".

Definition alice : User.t :=
  User.mk alice_id "a@x.com" "sha256:Aa1!aaaa" (Some forgot_password_token).

(** A user whose password would not pass the checks of the login form. *)
Definition bob : User.t :=
  User.mk "64b7f0c2a1d3e4f5a6b7c8da" "b@x.com" "sha256:weak" None.

Definition db : Database :=
  mkDatabase [alice; bob]
             [RefreshToken.mk refresh_token alice_id;
              RefreshToken.mk mislabelled_token alice_id].

Definition empty_db : Database := mkDatabase [] [].

(** A request to the refresh route with this [refresh_token]. *)
Definition refresh (db : Database) (token : string) : World LogoutRequestBody.t :=
  mkWorld db (request ∅ (LogoutRequestBody.mk token)).

Definition verify_email (token : string) : World EmailVerifyRequestBody.t :=
  mkWorld db (request ∅ (EmailVerifyRequestBody.mk token)).

Definition verify_forgot_password (token : string)
  : World VerifyForgotPassWordTokenRequestBody.t :=
  mkWorld db (request ∅ (VerifyForgotPassWordTokenRequestBody.mk token)).

Definition login (email password : string) : World LoginRequestBody.t :=
  mkWorld db (request ∅ (LoginRequestBody.mk email password)).

Definition register (email : string) : World RegisterRequestBody.t :=
  mkWorld db (request ∅ (RegisterRequestBody.mk "Alice" email "Aa1!aaaa"
                                                "Aa1!aaaa" "2000-01-01")).

(** A request to a protected route with this [Authorization] header. *)
Definition protected (header : string) : World unit :=
  mkWorld db (request {[ "authorization" := header ]} tt).

(** [Bearer], a tab, the access token. *)
Definition tab_header : string := "Bearer" ++ String "009" access_token.

(** A forgot-password token of a user the store does not hold. *)
Definition stranger_token : string :=
  sign (TokenPayload.mk "64b7f0c2a1d3e4f5a6b7c8ff" TokenType.ForgotPasswordToken)
       "forgot-password-secret".

(** A forgot-password token whose subject is no identifier. *)
Definition malformed_subject_token : string :=
  sign (TokenPayload.mk "alice" TokenType.ForgotPasswordToken)
       "forgot-password-secret".

(** The imports with a [verifyToken] that rejects with an error of its own,
    not one of jsonwebtoken. *)
Definition failing_imports : Imports := {|
  hashPassword := λ password, "sha256:" ++ password;
  verifyToken := λ _ _, inl (Error (Text "secret must be provided"));
  new_ObjectId := objectId;
  isEmail := JS.any (Ascii.eqb "@");
  isStrongPassword := strong;
  isISO8601 := λ s, Nat.eqb (String.length s) 10;
  JWT_SECRET_ACCESS_TOKEN := "access-secret";
  JWT_SECRET_REFRESH_TOKEN := "refresh-secret";
  JWT_SECRET_EMAIL_VERIFY_TOKEN := "email-verify-secret";
  JWT_SECRET_FORGOT_PASSWORD_TOKEN := "forgot-password-secret"
|}.

Definition forgot_password (email : string) : World ForgotPassWordRequestBody.t :=
  mkWorld db (request ∅ (ForgotPassWordRequestBody.mk email)).


(** A user whose stored email has a space before and after it. *)
Definition carol : User.t :=
  User.mk "64b7f0c2a1d3e4f5a6b7c8db" " c@x.com " "sha256:Aa1!aaaa" None.

(** A registration with the email of [carol] as it is stored, against a
    store that holds [carol] alone. *)
Definition register_padded : World RegisterRequestBody.t :=
  mkWorld (mkDatabase [carol] [])
          (request ∅ (RegisterRequestBody.mk "Carol" " c@x.com " "Aa1!aaaa"
                                             "Aa1!aaaa" "2000-01-01")).

End Sample.

(** * Properties *)

(** ** Strings *)

#[local] Arguments String.append !_ _ / : simpl nomatch.

Lemma isEmpty_true (s : string) : JS.isEmpty s = true ↔ s = "".
Proof. destruct s; simpl; split; congruence. Qed.

Lemma isEmpty_false (s : string) : JS.isEmpty s = false ↔ s ≠ "".
Proof. destruct s; simpl; split; congruence. Qed.

Lemma isEmpty_app_r (a t : string) : t ≠ "" → JS.isEmpty (a ++ t) = false.
Proof. intros Ht. destruct a; simpl; [by apply isEmpty_false | done]. Qed.

Lemma append_empty_r (s : string) : s ++ "" = s.
Proof. induction s as [|c s IH]; simpl; [done | by rewrite IH]. Qed.


Lemma any_app (p : ascii → bool) (a b : string) :
  JS.any p (a ++ b) = JS.any p a || JS.any p b.
Proof.
  induction a as [|c a IH]; simpl; [done|].
  rewrite IH. by destruct (p c).
Qed.



Lemma rtrim_free (s : string) :
  JS.any JS.isWhitespace s = false → JS.rtrim s = s.
Proof.
  induction s as [|c s IH]; simpl; [done|].
  intros [Hc Hs]%orb_false_elim. rewrite Hc. simpl. by rewrite IH.
Qed.

Lemma rtrim_app_word (a t : string) :
  JS.word t → JS.rtrim (a ++ t) = a ++ t.
Proof.
  intros [Hne Hfree]. induction a as [|c a IH]; simpl.
  - by apply rtrim_free.
  - rewrite IH, (isEmpty_app_r _ _ Hne), andb_false_r. done.
Qed.

Lemma ltrim_word_app (s r : string) :
  JS.word s → JS.ltrim (s ++ r) = s ++ r.
Proof.
  intros [Hne Hfree]. destruct s as [|c s]; [done|]. simpl in *.
  apply orb_false_elim in Hfree as [-> _]. done.
Qed.

Lemma trim_word (s : string) : JS.word s → JS.trim s = s.
Proof.
  intros Hs. unfold JS.trim.
  rewrite <- (append_empty_r s) at 1. rewrite ltrim_word_app by done.
  rewrite append_empty_r. by apply (rtrim_app_word "").
Qed.


Lemma split_free (sep : ascii) (s : string) :
  JS.any (λ c, Ascii.eqb c sep) s = false → JS.split sep s = [s].
Proof.
  induction s as [|c s IH]; simpl; [done|].
  intros [Hc Hs]%orb_false_elim. by rewrite Hc, IH.
Qed.

Lemma split_app (sep : ascii) (x y : string) :
  JS.any (λ c, Ascii.eqb c sep) x = false →
  JS.split sep (x ++ String sep y) = x :: JS.split sep y.
Proof.
  induction x as [|c x IH]; simpl.
  - intros _. by rewrite Ascii.eqb_refl.
  - intros [Hc Hx]%orb_false_elim. by rewrite Hc, IH.
Qed.

(** ** The sample codec satisfies the contract of the codec *)

Lemma decode_encode (s : string) : Sample.decode (Sample.encode s) = Some s.
Proof.
  induction s as [|[a b c d e f g h] s IH]; simpl; [done|]. by rewrite IH.
Qed.

Lemma encode_inj (s1 s2 : string) :
  Sample.encode s1 = Sample.encode s2 → s1 = s2.
Proof.
  intros Heq. apply (f_equal Sample.decode) in Heq.
  rewrite !decode_encode in Heq. congruence.
Qed.

Lemma encode_free (p : ascii → bool) (s : string) :
  (∀ a b c d, p (Sample.nibble a b c d) = false) →
  JS.any p (Sample.encode s) = false.
Proof.
  intros Hp. induction s as [|[a b c d e f g h] s IH]; simpl; [done|].
  by rewrite !Hp, IH.
Qed.

Lemma kind_of_kind_char (kind : TokenType.t) :
  Sample.kind_of_char (Sample.kind_char kind) = Some kind.
Proof. by destruct kind. Qed.

Lemma split_signed (subject secret : string) :
  JS.split "." (Sample.encode subject ++ String "." (Sample.encode secret))
  = [Sample.encode subject; Sample.encode secret].
Proof.
  rewrite split_app, split_free; [done| |];
    apply encode_free; by intros [] [] [] [].
Qed.

Lemma sign_word (payload : TokenPayload.t) (secret : string) :
  JS.word (Sample.sign payload secret).
Proof.
  split; [done|]. unfold Sample.sign. simpl. rewrite any_app. simpl.
  rewrite !encode_free by (by intros [] [] [] []).
  by destruct (TokenPayload.token_type payload).
Qed.

Lemma sample_codec : @TokenCodec Sample.imports Sample.sign.
Proof.
  split; simpl.
  - intros [user_id kind] secret. unfold Sample.verify, Sample.sign. simpl.
    by rewrite kind_of_kind_char, split_signed, String.eqb_refl, decode_encode.
  - intros [user_id kind] secret secret' Hne.
    unfold Sample.verify, Sample.sign. simpl.
    rewrite kind_of_kind_char, split_signed.
    destruct (String.eqb_spec (Sample.encode secret) (Sample.encode secret'))
      as [Heq%encode_inj|_]; [done|]. by eexists.
  - intros payload secret. apply trim_word, sign_word.
Qed.

(** ** What each token middleware computes *)

Section Runs.

Context `{Imports}.

(** The refresh token middleware, step by step. *)
Lemma refreshTokenValidator_run (w : World LogoutRequestBody.t) :
  refreshTokenValidator w =
    let value := submitted_refresh_token w in
    let w' := with_body (LogoutRequestBody.mk value) w in
    let failure m := ([mkValidationError "refresh_token" m], w') in
    if JS.isEmpty value
    then failure (WithStatus (Msg REFRESH_TOKEN_IS_REQUIRED) UNAUTHORIZED)
    else
      match verifyToken value JWT_SECRET_REFRESH_TOKEN with
      | inl e => failure (caught e)
      | inr decoded =>
          match find (λ t, bool_decide (Some (RefreshToken.token t) = Some value))
                     (refreshTokens (database w)) with
          | None =>
              failure (WithStatus (Msg REFRESH_TOKEN_IS_USED_OR_NOT_EXIST)
                                  UNAUTHORIZED)
          | Some _ =>
              ([], mkWorld (database w)
                           (set_decoded_refresh_token decoded (req w')))
          end
      end.
Proof.
  unfold refreshTokenValidator, refreshTokenSchema, checkSchema, runChain,
    refreshTokenValidator_custom, select, Std.trim, JS.truthy.
  cbn.
  destruct (JS.isEmpty _) eqn:Hempty; cbn; [done|].
  unfold try_catch, mbind, M_bind, await, refreshTokens_findOne. cbn.
  destruct (verifyToken _ _) as [e|decoded]; cbn.
  - by destruct e.
  - by destruct (find _ _).
Qed.

Lemma emailVerifyTokenValidator_run (w : World EmailVerifyRequestBody.t) :
  emailVerifyTokenValidator w =
    let value := submitted_email_verify_token w in
    let w' := with_body (EmailVerifyRequestBody.mk value) w in
    let failure m := ([mkValidationError "email_verify_token" m], w') in
    if JS.isEmpty value
    then failure (WithStatus (Msg EMAIL_VERIFY_TOKEN_IS_REQUIRED) UNAUTHORIZED)
    else
      match verifyToken value JWT_SECRET_EMAIL_VERIFY_TOKEN with
      | inl e => failure (caught e)
      | inr decoded =>
          ([], mkWorld (database w)
                       (set_decoded_email_verify_token decoded (req w')))
      end.
Proof.
  unfold emailVerifyTokenValidator, emailVerifyTokenSchema, checkSchema,
    runChain, emailVerifyTokenValidator_custom, select, Std.trim, JS.truthy.
  cbn.
  destruct (JS.isEmpty _) eqn:Hempty; cbn; [done|].
  unfold try_catch, mbind, M_bind, await. cbn.
  destruct (verifyToken _ _) as [e|decoded]; cbn; [by destruct e | done].
Qed.

Lemma verifyForgotPasswordTokenValidator_run
      (w : World VerifyForgotPassWordTokenRequestBody.t) :
  verifyForgotPasswordTokenValidator w =
    let value := submitted_forgot_password_token w in
    let w' := with_body (VerifyForgotPassWordTokenRequestBody.mk value) w in
    let failure m := ([mkValidationError "forgot_password_token" m], w') in
    if JS.isEmpty value
    then failure (WithStatus (Msg FORGOT_PASSWORD_TOKEN_IS_REQUIRED) UNAUTHORIZED)
    else
      match verifyToken value JWT_SECRET_FORGOT_PASSWORD_TOKEN with
      | inl e => failure (caught e)
      | inr decoded =>
          match new_ObjectId (TokenPayload.user_id decoded) with
          | inl e => failure (caught e)
          | inr oid =>
              match find (λ u, bool_decide (User._id u = oid))
                         (users (database w)) with
              | None => failure (WithStatus (Msg USER_NOT_FOUND) UNAUTHORIZED)
              | Some user =>
                  if bool_decide (User.forgot_password_token user ≠ Some value)
                  then failure (WithStatus (Msg FORGOT_PASSWORD_TOKEN_IS_INVALID)
                                           UNAUTHORIZED)
                  else ([], w')
              end
          end
      end.
Proof.
  unfold verifyForgotPasswordTokenValidator, verifyForgotPasswordTokenSchema,
    checkSchema, runChain, verifyForgotPasswordTokenValidator_custom, select,
    Std.trim, JS.truthy.
  cbn.
  destruct (JS.isEmpty _) eqn:Hempty; cbn; [done|].
  unfold try_catch, mbind, M_bind, await, users_findOne. cbn.
  destruct (verifyToken _ _) as [e|decoded]; cbn; [by destruct e|].
  destruct (new_ObjectId _) as [e|oid]; cbn; [by destruct e|].
  destruct (find _ _) as [user|]; cbn; [|done].
  by destruct (bool_decide _).
Qed.

Lemma toLowerCase_Authorization :
  JS.toLowerCase "Authorization" = "authorization".
Proof. reflexivity. Qed.

Lemma or_empty (value : JS.Value) :
  JS.toString (JS.or value (Some "")) = JS.toString value.
Proof. by destruct value as [[|c s]|]. Qed.

Lemma access_token_of_trim (value : JS.Value) :
  access_token_of (Std.trim value)
  = JS.split " " (JS.trim (JS.toString value)) !! 1%nat.
Proof. unfold access_token_of, Std.trim. by rewrite or_empty. Qed.

Lemma accessTokenValidator_run {Body : Type} `{!JsonObject Body} (w : World Body) :
  accessTokenValidator w =
    let w' := with_authorization (JS.trim (authorization_header w)) w in
    match JS.split " " (JS.trim (authorization_header w)) !! 1%nat with
    | None | Some "" =>
        ([mkValidationError "authorization"
            (WithStatus (Msg ACCESS_TOKEN_IS_REQUIRED) UNAUTHORIZED)], w')
    | Some access_token => verify_access_token access_token w'
    end.
Proof.
  unfold accessTokenValidator, accessTokenSchema, checkSchema, runChain,
    accessTokenValidator_custom, select, instance_path, write.
  cbn [field_path chain]. rewrite toLowerCase_Authorization.
  rewrite access_token_of_trim. cbn zeta.
  unfold with_authorization, authorization_header, Std.trim.
  destruct (JS.split " " _ !! 1%nat) as [[|c token]|]; cbn; [done| |done].
  unfold try_catch, mbind, M_bind, await, verify_access_token. cbn.
  by destruct (verifyToken _ _).
Qed.

End Runs.

(** ** The middlewares only read the database *)

Section Frame.

Context {Body : Type} `{!JsonObject Body}.

Lemma read_only_ret {A : Type} (a : A) : read_only (Body := Body) (mret a).
Proof. by intros w. Qed.

Lemma read_only_throw {A : Type} (e : Thrown) :
  read_only (Body := Body) (throw (A := A) e).
Proof. by intros w. Qed.

Lemma read_only_await {A : Type} (settled : Thrown + A) :
  read_only (Body := Body) (await settled).
Proof. by intros w. Qed.

Lemma read_only_get_req : read_only (Body := Body) get_req.
Proof. by intros w. Qed.

Lemma read_only_assign (f : Request Body → Request Body) :
  read_only (assign f).
Proof. by intros w. Qed.

Lemma read_only_users_findOne (filter : User.t → bool) :
  read_only (Body := Body) (users_findOne filter).
Proof. by intros w. Qed.

Lemma read_only_refreshTokens_findOne (filter : RefreshToken.t → bool) :
  read_only (Body := Body) (refreshTokens_findOne filter).
Proof. by intros w. Qed.

Lemma read_only_bind {A B : Type} (m : M Body A) (k : A → M Body B) :
  read_only m → (∀ a, read_only (k a)) → read_only (m ≫= k).
Proof.
  intros Hm Hk w. unfold mbind, M_bind. specialize (Hm w).
  destruct (m w) as [[e|a] w']; simpl in *; [done|].
  by rewrite Hk.
Qed.

Lemma read_only_try_catch {A : Type} (m : M Body A) (handler : Thrown → M Body A) :
  read_only m → (∀ e, read_only (handler e)) → read_only (try_catch m handler).
Proof.
  intros Hm Hh w. unfold try_catch. specialize (Hm w).
  destruct (m w) as [[e|a] w']; simpl in *; [|done].
  by rewrite Hh.
Qed.

Lemma read_only_if {A : Type} (b : bool) (m1 m2 : M Body A) :
  read_only m1 → read_only m2 → read_only (if b then m1 else m2).
Proof. by destruct b. Qed.

Lemma read_only_match_option {A B : Type} (o : option A)
      (m1 : A → M Body B) (m2 : M Body B) :
  (∀ a, read_only (m1 a)) → read_only m2 →
  read_only (match o with Some a => m1 a | None => m2 end).
Proof. by destruct o. Qed.

Lemma write_database (location : Location) (path : string) (value : JS.Value)
      (w : World Body) :
  database (write location path value w) = database w.
Proof. by destruct value. Qed.

Lemma runChain_database (location : Location) (path : string)
      (steps : list (Step Body)) (value : JS.Value) (w : World Body) :
  Forall step_read_only steps →
  database (runChain location path steps value w).2 = database w.
Proof.
  intros Hsteps. revert value w.
  induction Hsteps as [|step steps Hstep _ IH]; intros value w; [done|].
  destruct step as [test errorMessage|f|options]; simpl.
  - specialize (IH value w).
    by destruct (runChain location path steps value w).
  - by rewrite IH, write_database.
  - specialize (Hstep value w).
    destruct (options value w) as [[e|b] w1]; simpl in *.
    + specialize (IH value w1).
      destruct (runChain location path steps value w1). simpl in *. congruence.
    + rewrite IH. done.
Qed.

Lemma checkSchema_database (schema : list (Field Body)) (location : Location)
      (w : World Body) :
  Forall (λ f, Forall step_read_only (chain f)) schema →
  database (checkSchema schema location w).2 = database w.
Proof.
  intros Hschema. revert w.
  induction Hschema as [|f fields Hf _ IH]; intros w; [done|]. simpl.
  pose proof (runChain_database location
                (instance_path location (field_path f)) (chain f)
                (select location (instance_path location (field_path f)) (req w))
                w Hf) as Hrun.
  destruct (runChain _ _ _ _ w) as [errors w1]. simpl in Hrun.
  specialize (IH w1). destruct (checkSchema fields location w1) as [errors' w2].
  simpl in *. congruence.
Qed.

End Frame.

Create HintDb read_only.

#[local] Hint Resolve read_only_ret read_only_throw read_only_await
  read_only_get_req read_only_assign read_only_users_findOne
  read_only_refreshTokens_findOne : read_only.

Ltac read_only :=
  repeat first
    [ apply read_only_bind; [|intros ?]
    | apply read_only_try_catch; [|intros ?]
    | apply read_only_if
    | apply read_only_match_option; [intros ?|]
    | solve [auto with read_only] ].

Ltac schema_read_only :=
  repeat (apply Forall_cons; split); try apply Forall_nil; simpl;
  try exact I; intros ?.

Section FrameOfMiddlewares.

Context `{Imports}.

Lemma loginValidator_database (w : World LoginRequestBody.t) :
  database (loginValidator w).2 = database w.
Proof.
  apply checkSchema_database. schema_read_only.
  unfold loginValidator_email_custom. read_only.
Qed.

Lemma registerValidator_database (w : World RegisterRequestBody.t) :
  database (registerValidator w).2 = database w.
Proof.
  apply checkSchema_database. schema_read_only.
  - unfold registerValidator_email_custom, checkEmailExist. read_only.
  - unfold registerValidator_confirm_password_custom. read_only.
Qed.

Lemma accessTokenValidator_database {Body : Type} `{!JsonObject Body}
      (w : World Body) :
  database (accessTokenValidator w).2 = database w.
Proof.
  apply checkSchema_database. schema_read_only.
  unfold accessTokenValidator_custom. read_only.
Qed.

Lemma refreshTokenValidator_database (w : World LogoutRequestBody.t) :
  database (refreshTokenValidator w).2 = database w.
Proof.
  apply checkSchema_database. schema_read_only.
  unfold refreshTokenValidator_custom. read_only.
Qed.

Lemma emailVerifyTokenValidator_database (w : World EmailVerifyRequestBody.t) :
  database (emailVerifyTokenValidator w).2 = database w.
Proof.
  apply checkSchema_database. schema_read_only.
  unfold emailVerifyTokenValidator_custom. read_only.
Qed.

Lemma forgotPassWordValidator_database (w : World ForgotPassWordRequestBody.t) :
  database (forgotPassWordValidator w).2 = database w.
Proof.
  apply checkSchema_database. schema_read_only.
  unfold forgotPassWordValidator_email_custom. read_only.
Qed.

Lemma verifyForgotPasswordTokenValidator_database
      (w : World VerifyForgotPassWordTokenRequestBody.t) :
  database (verifyForgotPasswordTokenValidator w).2 = database w.
Proof.
  apply checkSchema_database. schema_read_only.
  unfold verifyForgotPasswordTokenValidator_custom. read_only.
Qed.

End FrameOfMiddlewares.

(** ** Login and registration *)

Section Credentials.

Context `{Imports}.

Lemma find_Some_elem {A : Type} (f : A → bool) (l : list A) (x : A) :
  find f l = Some x → x ∈ l ∧ f x = true.
Proof.
  intros [Hin Hf]%find_some. split; [by apply list_elem_of_In | done].
Qed.

Lemma find_None_elem {A : Type} (f : A → bool) (l : list A) :
  find f l = None → ∀ x, x ∈ l → f x = false.
Proof.
  intros Hnone x Hin%list_elem_of_In. by eapply find_none.
Qed.

Lemma find_is_Some {A : Type} (f : A → bool) (l : list A) :
  is_Some (find f l) ↔ ∃ x, x ∈ l ∧ f x = true.
Proof.
  split.
  - intros [x Hx]. exists x. by apply find_Some_elem.
  - intros [x [Hin Hf]]. destruct (find f l) eqn:Hfind; [done|].
    rewrite (find_None_elem _ _ Hfind x Hin) in Hf. done.
Qed.

Lemma loginValidator_run (w : World LoginRequestBody.t) :
  loginValidator w =
    let email := Some (LoginRequestBody.email (body (req w))) in
    let password := Some (LoginRequestBody.password (body (req w))) in
    ((failed "email" isEmail_ EMAIL_INVALID email
      ++ failed "email" Std.notEmpty EMAIL_IS_REQUIRED email
      ++ match login_lookup w with
         | None => [mkValidationError "email"
                      (MessageOnly (Msg EMAIL_OR_PASSWORD_INCORRECT))]
         | Some _ => []
         end)
     ++ failed "password" Std.isString PASSWORD_MUST_BE_STRING password
     ++ failed "password" Std.notEmpty PASSWORD_IS_REQUIRED password
     ++ failed "password" (Std.isLength 6 50) PASSWORD_LENGTH password
     ++ failed "password" isStrongPassword_ PASSWORD_MUST_BE_STRONG password,
     let w' :=
       with_body (LoginRequestBody.mk
                    (JS.trim (LoginRequestBody.email (body (req w))))
                    (LoginRequestBody.password (body (req w)))) w in
     match login_lookup w with
     | None => w'
     | Some user => mkWorld (database w) (set_user user (req w'))
     end)%list.
Proof.
  unfold loginValidator, loginSchema, checkSchema, runChain,
    loginValidator_email_custom, select, login_lookup, instance_path, write.
  cbn -[failed].
  unfold mbind, M_bind, get_req, users_findOne. cbn -[failed].
  destruct (find _ _) as [user|]; cbn -[failed]; by rewrite !app_nil_r.
Qed.

End Credentials.

(** ** The refresh token middleware *)

Section RefreshToken.

Context `{Imports}.

Lemma stored_refresh_token_find (db : Database) (token : string) :
  stored_refresh_token db token ↔
  is_Some (find (λ t, bool_decide (Some (RefreshToken.token t) = Some token))
                (refreshTokens db)).
Proof.
  rewrite find_is_Some. unfold stored_refresh_token.
  split; intros [t [Hin Ht]]; exists t; split; try done.
  - apply bool_decide_eq_true. by rewrite Ht.
  - apply bool_decide_eq_true in Ht. congruence.
Qed.

Lemma refreshTokenValidator_required (w : World LogoutRequestBody.t) :
  submitted_refresh_token w = "" →
  rejected_with "refresh_token" REFRESH_TOKEN_IS_REQUIRED UNAUTHORIZED
                (refreshTokenValidator w).
Proof.
  intros Hempty. unfold rejected_with.
  rewrite refreshTokenValidator_run. cbn zeta. by rewrite Hempty.
Qed.

(** C1, as the code has it: a refresh token that is empty once trimmed is
    rejected with REFRESH_TOKEN_IS_REQUIRED at 401 before any verification.
    For every other token, the middleware accepts exactly when the token
    verifies under the refresh secret and the string is in the refresh-token
    store; a token that verifies but is absent from the store is rejected
    with REFRESH_TOKEN_IS_USED_OR_NOT_EXIST at 401, and a token whose
    verification fails with REFRESH_TOKEN_INVALID at 401. *)
Theorem refreshTokenValidator_verdict (w : World LogoutRequestBody.t) :
  let token := submitted_refresh_token w in
  (token = "" →
   rejected_with "refresh_token" REFRESH_TOKEN_IS_REQUIRED UNAUTHORIZED
                 (refreshTokenValidator w))
  ∧ (token ≠ "" →
     (accepted (refreshTokenValidator w) ↔
        verifies token JWT_SECRET_REFRESH_TOKEN
        ∧ stored_refresh_token (database w) token)
     ∧ (verifies token JWT_SECRET_REFRESH_TOKEN →
        ¬ stored_refresh_token (database w) token →
        rejected_with "refresh_token" REFRESH_TOKEN_IS_USED_OR_NOT_EXIST
                      UNAUTHORIZED (refreshTokenValidator w))
     ∧ (verification_fails token JWT_SECRET_REFRESH_TOKEN →
        rejected_with "refresh_token" REFRESH_TOKEN_INVALID UNAUTHORIZED
                      (refreshTokenValidator w))).
Proof.
  intros token. split; [apply refreshTokenValidator_required|].
  intros Hne%isEmpty_false.
  unfold accepted, rejected_with, verifies, verification_fails.
  rewrite refreshTokenValidator_run. cbn zeta. fold token. rewrite Hne.
  rewrite stored_refresh_token_find.
  destruct (verifyToken token JWT_SECRET_REFRESH_TOKEN) as [e|decoded] eqn:Hv.
  - split; [|split].
    + split; [done|]. by intros [[payload ?] _].
    + by intros [payload ?].
    + intros [m [= ->]]. done.
  - destruct (find _ _) as [t|] eqn:Hfind; simpl.
    + split; [|split].
      * split; [|done]. intros _. split; eauto.
      * intros _ []. eauto.
      * by intros [m ?].
    + split; [|split].
      * split; [done|]. intros [_ [t ?]]. done.
      * done.
      * by intros [m ?].
Qed.

(** C2, as the code has it: the middleware does not read the kind tag.
    Every token that is not empty once trimmed, verifies under the refresh
    secret and is in the store is accepted, whatever [token_type] its payload
    carries, and that payload is attached to the request as it was
    decoded. *)
Theorem refreshTokenValidator_ignores_kind
        (w : World LogoutRequestBody.t) (payload : TokenPayload.t) :
  let token := submitted_refresh_token w in
  token ≠ "" →
  verifyToken token JWT_SECRET_REFRESH_TOKEN = inr payload →
  stored_refresh_token (database w) token →
  accepted (refreshTokenValidator w)
  ∧ decoded_refresh_token (req (refreshTokenValidator w).2) = Some payload.
Proof.
  intros token Hne%isEmpty_false Hv [t Ht]%stored_refresh_token_find.
  unfold accepted. rewrite refreshTokenValidator_run. cbn zeta. fold token.
  by rewrite Hne, Hv, Ht.
Qed.

Lemma with_body_refresh_token (w : World LogoutRequestBody.t) (token : string) :
  LogoutRequestBody.refresh_token (body (req w)) = token →
  with_body (LogoutRequestBody.mk token) w = w.
Proof.
  destruct w as [db [h [t] u a r e]]. simpl. by intros ->.
Qed.

(** C5: a token issued under the email-verify secret does not pass the
    refresh token middleware when the two secrets differ, whatever kind
    its payload carries and whatever the store holds; the world is left as
    it was, and a token that is not empty is rejected with
    REFRESH_TOKEN_INVALID at 401. *)
Theorem refreshTokenValidator_rejects_email_verify_token
        (signToken : TokenPayload.t → string → string)
        (w : World LogoutRequestBody.t) (payload : TokenPayload.t) :
  TokenCodec signToken →
  JWT_SECRET_EMAIL_VERIFY_TOKEN ≠ JWT_SECRET_REFRESH_TOKEN →
  LogoutRequestBody.refresh_token (body (req w))
  = signToken payload JWT_SECRET_EMAIL_VERIFY_TOKEN →
  ¬ accepted (refreshTokenValidator w)
  ∧ (refreshTokenValidator w).2 = w
  ∧ (signToken payload JWT_SECRET_EMAIL_VERIFY_TOKEN ≠ "" →
     rejected_with "refresh_token" REFRESH_TOKEN_INVALID UNAUTHORIZED
                   (refreshTokenValidator w)).
Proof.
  intros Hcodec Hsecrets Hbody.
  destruct (verify_other_secret _ Hcodec payload _ _ Hsecrets) as [m Hm].
  unfold accepted, rejected_with.
  rewrite refreshTokenValidator_run. cbn zeta.
  unfold submitted_refresh_token.
  rewrite Hbody, (signed_compact _ Hcodec), Hm.
  rewrite (with_body_refresh_token w _ Hbody).
  destruct (JS.isEmpty _) eqn:Hempty; simpl.
  - split; [done|]. split; [done|]. intros Hne%isEmpty_false. congruence.
  - repeat split; done.
Qed.

End RefreshToken.

(** ** The email-verify and forgot-password middlewares *)

Section TokenFlows.

Context `{Imports}.


(** C4, what the code does: a token that is present but fails
    verification is rejected at 401 by the email-verify and by the
    forgot-password middleware with the message of the refresh flow,
    REFRESH_TOKEN_INVALID, not with a message of their own kind. *)
Theorem token_flows_reject_with_refresh_message
        (w1 : World EmailVerifyRequestBody.t)
        (w2 : World VerifyForgotPassWordTokenRequestBody.t) :
  submitted_email_verify_token w1 ≠ "" →
  verification_fails (submitted_email_verify_token w1)
                     JWT_SECRET_EMAIL_VERIFY_TOKEN →
  submitted_forgot_password_token w2 ≠ "" →
  verification_fails (submitted_forgot_password_token w2)
                     JWT_SECRET_FORGOT_PASSWORD_TOKEN →
  rejected_with "email_verify_token" REFRESH_TOKEN_INVALID UNAUTHORIZED
                (emailVerifyTokenValidator w1)
  ∧ rejected_with "forgot_password_token" REFRESH_TOKEN_INVALID UNAUTHORIZED
                  (verifyForgotPasswordTokenValidator w2).
Proof.
  intros Hne1%isEmpty_false [m1 Hv1] Hne2%isEmpty_false [m2 Hv2].
  unfold rejected_with.
  rewrite emailVerifyTokenValidator_run,
    verifyForgotPasswordTokenValidator_run. cbn zeta.
  by rewrite Hne1, Hv1, Hne2, Hv2.
Qed.

End TokenFlows.

(** ** The access token middleware *)

Section AccessToken.

Context `{Imports} {Body : Type} `{!JsonObject Body}.

(** C8: the outcome of the access token middleware does not depend on the
    database: on the same request, two stores give the same errors and the
    same request afterwards. *)
Theorem accessTokenValidator_store_independent
        (r : Request Body) (db1 db2 : Database) :
  (accessTokenValidator (mkWorld db1 r)).1
  = (accessTokenValidator (mkWorld db2 r)).1
  ∧ req (accessTokenValidator (mkWorld db1 r)).2
    = req (accessTokenValidator (mkWorld db2 r)).2.
Proof.
  rewrite !accessTokenValidator_run. unfold authorization_header. simpl.
  destruct (JS.split " " _ !! 1%nat) as [[|c token]|]; [done| |done].
  unfold verify_access_token. by destruct (verifyToken _ _).
Qed.



End AccessToken.

(** ** The login and the registration middleware *)

Section LoginRegister.

Context `{Imports}.

Lemma failed_nil (field : string) (test : JS.Value → bool)
      (errorMessage : USERS_MESSAGES.t) (value : JS.Value) :
  failed field test errorMessage value = [] ↔ test value = true.
Proof. unfold failed. destruct (test value); split; congruence. Qed.

Lemma elem_of_failed (e : ValidationError) (field : string)
      (test : JS.Value → bool) (errorMessage : USERS_MESSAGES.t)
      (value : JS.Value) :
  e ∈ failed field test errorMessage value →
  e = mkValidationError field (MessageOnly (Msg errorMessage)).
Proof.
  unfold failed. destruct (test value); [by intros ?%elem_of_nil|].
  by intros ?%list_elem_of_singleton.
Qed.

Lemma errors_of_app (field : string) (l1 l2 : list ValidationError) :
  errors_of field (l1 ++ l2)%list
  = (errors_of field l1 ++ errors_of field l2)%list.
Proof. unfold errors_of. by rewrite filter_app, fmap_app. Qed.

Lemma errors_of_failed_ne (field field' : string) (test : JS.Value → bool)
      (errorMessage : USERS_MESSAGES.t) (value : JS.Value) :
  field' ≠ field →
  errors_of field (failed field' test errorMessage value) = [].
Proof.
  intros Hne. unfold errors_of, failed. destruct (test value); [done|].
  by rewrite filter_cons_False.
Qed.

Lemma login_lookup_is_Some (w : World LoginRequestBody.t) :
  is_Some (login_lookup w) ↔
  credentials_match (database w)
    (JS.trim (LoginRequestBody.email (body (req w))))
    (hashPassword (LoginRequestBody.password (body (req w)))).
Proof.
  unfold login_lookup, credentials_match. rewrite find_is_Some.
  split; intros [u [Hin Hu]]; exists u; split; try done.
  - apply bool_decide_eq_true in Hu as [[= ?] ?]. done.
  - apply bool_decide_eq_true. destruct Hu as [-> ->]. done.
Qed.

Lemma notEmpty_true (s : string) : Std.notEmpty (Some s) = true ↔ s ≠ "".
Proof.
  unfold Std.notEmpty. simpl. rewrite negb_true_iff. apply isEmpty_false.
Qed.

Lemma isLength_true (min max : nat) (s : string) :
  Std.isLength min max (Some s) = true ↔
  (min ≤ String.length s ∧ String.length s ≤ max)%nat.
Proof.
  unfold Std.isLength. simpl.
  rewrite andb_true_iff, !Nat.leb_le. done.
Qed.

(** C6, as the code has it: the middleware accepts exactly when some user
    has the (trimmed) email and the hash of the password AND the format
    checks pass: the email is a non-empty email address, the password is
    non-empty, 6 to 50 long and strong.  The error
    EMAIL_OR_PASSWORD_INCORRECT is recorded on the email exactly when no
    user matches. *)
Theorem loginValidator_verdict (w : World LoginRequestBody.t) :
  let email := LoginRequestBody.email (body (req w)) in
  let password := LoginRequestBody.password (body (req w)) in
  let matching :=
    credentials_match (database w) (JS.trim email) (hashPassword password) in
  (accepted (loginValidator w) ↔
     matching
     ∧ isEmail email = true ∧ email ≠ ""
     ∧ password ≠ ""
     ∧ (6 ≤ String.length password ∧ String.length password ≤ 50)%nat
     ∧ isStrongPassword password = true)
  ∧ (mkValidationError "email" (MessageOnly (Msg EMAIL_OR_PASSWORD_INCORRECT))
       ∈ (loginValidator w).1 ↔ ¬ matching).
Proof.
  intros email password matching. subst matching email password.
  unfold accepted.
  rewrite <- login_lookup_is_Some, loginValidator_run. cbn zeta. simpl fst.
  split.
  - rewrite !app_nil, !failed_nil, !notEmpty_true, isLength_true.
    unfold isEmail_, isStrongPassword_, Std.isString. simpl.
    destruct (login_lookup w) as [user|]; split.
    + intros ((? & ? & _) & ? & ? & ?). eauto 10.
    + intros (_ & ? & ? & ? & ? & ?). done.
    + intros ((_ & _ & [=]) & _).
    + intros ([? [=]] & _).
  - destruct (login_lookup w) as [user|]; split.
    + intros He.
      repeat (apply elem_of_app in He; destruct He as [He|He]);
        first [ by apply elem_of_nil in He
              | by apply elem_of_failed in He ].
    + intros []. eauto.
    + intros _ [? [=]].
    + intros _. apply elem_of_app. left. do 2 (apply elem_of_app; right).
      by apply list_elem_of_singleton.
Qed.

Lemma registerValidator_run (w : World RegisterRequestBody.t) :
  registerValidator w =
    let name := Some (RegisterRequestBody.name (body (req w))) in
    let email := Some (RegisterRequestBody.email (body (req w))) in
    let password := Some (RegisterRequestBody.password (body (req w))) in
    let confirm_password :=
      Some (RegisterRequestBody.confirm_password (body (req w))) in
    let date_of_birth := Some (RegisterRequestBody.date_of_birth (body (req w))) in
    (failed "name" Std.isString NAME_MUST_BE_STRING name
     ++ failed "name" Std.notEmpty NAME_IS_REQUIRED name
     ++ failed "name" (Std.isLength 1 100) NAME_LENGTH name
     ++ failed "email" isEmail_ EMAIL_INVALID email
     ++ failed "email" Std.notEmpty EMAIL_IS_REQUIRED email
     ++ match find (λ u, bool_decide (Some (User.email u) = Std.trim email))
                   (users (database w)) with
        | Some _ => [mkValidationError "email"
                       (MessageOnly (Msg EMAIL_ALREADY_EXISTS))]
        | None => []
        end
     ++ failed "password" Std.isString PASSWORD_MUST_BE_STRING password
     ++ failed "password" Std.notEmpty PASSWORD_IS_REQUIRED password
     ++ failed "password" (Std.isLength 6 50) PASSWORD_LENGTH password
     ++ failed "password" isStrongPassword_ PASSWORD_MUST_BE_STRONG password
     ++ failed "confirm_password" Std.isString CONFIRM_PASSWORD_MUST_BE_STRING
               confirm_password
     ++ failed "confirm_password" Std.notEmpty CONFIRM_PASSWORD_IS_REQUIRED
               confirm_password
     ++ failed "confirm_password" (Std.isLength 6 50) CONFIRM_PASSWORD_LENGTH
               confirm_password
     ++ failed "confirm_password" isStrongPassword_
               CONFIRM_PASSWORD_MUST_BE_STRONG confirm_password
     ++ (if bool_decide (confirm_password ≠ password)
         then [mkValidationError "confirm_password"
                 (MessageOnly (Msg CONFIRM_PASSWORD_NOT_MATCH))]
         else [])
     ++ failed "date_of_birth" isISO8601_ DATE_OF_BIRTH_MUST_BE_ISO8061
               date_of_birth,
     with_body
       (RegisterRequestBody.mk
          (JS.trim (RegisterRequestBody.name (body (req w))))
          (JS.trim (RegisterRequestBody.email (body (req w))))
          (RegisterRequestBody.password (body (req w)))
          (RegisterRequestBody.confirm_password (body (req w)))
          (RegisterRequestBody.date_of_birth (body (req w)))) w)%list.
Proof.
  unfold registerValidator, registerSchema, checkSchema, runChain,
    registerValidator_email_custom, registerValidator_confirm_password_custom,
    checkEmailExist, select, instance_path, write.
  cbn -[failed].
  unfold mbind, M_bind, get_req, users_findOne. cbn -[failed].
  destruct (find _ _); cbn -[failed];
    destruct (bool_decide _); cbn -[failed];
    by rewrite ?app_nil_r, <- ?app_assoc.
Qed.

(** C7, as the code has it: a registration whose email, once trimmed, is
    the email of a user of the store is rejected: EMAIL_ALREADY_EXISTS is
    recorded on the email, and is the only error of that field when the email
    is well formed; the middleware leaves the database, and so the user
    store, as it was. *)
Theorem registerValidator_rejects_existing_email (w : World RegisterRequestBody.t) :
  let email := RegisterRequestBody.email (body (req w)) in
  email_exists (database w) (JS.trim email) →
  mkValidationError "email" (MessageOnly (Msg EMAIL_ALREADY_EXISTS))
    ∈ (registerValidator w).1
  ∧ ¬ accepted (registerValidator w)
  ∧ (isEmail email = true → email ≠ "" →
     errors_of "email" (registerValidator w).1
     = [MessageOnly (Msg EMAIL_ALREADY_EXISTS)])
  ∧ database (registerValidator w).2 = database w.
Proof.
  intros email [u [Hin Hu]].
  assert (is_Some (find (λ u, bool_decide
                                (Some (User.email u) = Std.trim (Some email)))
                        (users (database w)))) as [u' Hfind].
  { apply find_is_Some. exists u. split; [done|].
    apply bool_decide_eq_true. unfold Std.trim. simpl. by rewrite Hu. }
  assert (mkValidationError "email" (MessageOnly (Msg EMAIL_ALREADY_EXISTS))
            ∈ (registerValidator w).1) as Helem.
  { rewrite registerValidator_run. cbn zeta. simpl fst. fold email.
    rewrite Hfind.
    repeat first
      [ by (apply elem_of_app; left; apply list_elem_of_singleton)
      | apply elem_of_app; right ]. }
  split; [done|]. split; [|split].
  - unfold accepted. intros Hnil. rewrite Hnil in Helem.
    by apply elem_of_nil in Helem.
  - intros Hemail Hne. rewrite registerValidator_run. cbn zeta. simpl fst.
    fold email. rewrite Hfind.
    assert (failed "email" isEmail_ EMAIL_INVALID (Some email) = []) as ->
      by by apply failed_nil.
    assert (failed "email" Std.notEmpty EMAIL_IS_REQUIRED (Some email) = [])
      as -> by by apply failed_nil, notEmpty_true.
    rewrite !errors_of_app, !errors_of_failed_ne by done.
    by destruct (bool_decide _).
  - by rewrite registerValidator_run.
Qed.

End LoginRegister.

(** ** Every middleware leaves the persisted state alone *)

Section ReadOnly.

Context `{Imports}.

(** C10: whatever the request and the store, and whether the request
    passes or not, each of the seven middlewares returns the database it
    was given: the users and the refresh tokens are unchanged. *)
Theorem validators_read_only :
  (∀ w, database (loginValidator w).2 = database w)
  ∧ (∀ w, database (registerValidator w).2 = database w)
  ∧ (∀ (Body : Type) (J : JsonObject Body) (w : World Body),
       database (accessTokenValidator w).2 = database w)
  ∧ (∀ w, database (refreshTokenValidator w).2 = database w)
  ∧ (∀ w, database (emailVerifyTokenValidator w).2 = database w)
  ∧ (∀ w, database (forgotPassWordValidator w).2 = database w)
  ∧ (∀ w, database (verifyForgotPasswordTokenValidator w).2 = database w).
Proof.
  repeat split; intros.
  - apply loginValidator_database.
  - apply registerValidator_database.
  - apply accessTokenValidator_database.
  - apply refreshTokenValidator_database.
  - apply emailVerifyTokenValidator_database.
  - apply forgotPassWordValidator_database.
  - apply verifyForgotPasswordTokenValidator_database.
Qed.

End ReadOnly.

(** ** The middlewares on the sample requests *)

Section Examples.

#[local] Existing Instance Sample.imports.

Example refresh_accepts_stored_token :
  (refreshTokenValidator (Sample.refresh Sample.db Sample.refresh_token)).1 = [].
Proof. vm_compute. reflexivity. Qed.

Example refresh_rejects_logged_out_token :
  (refreshTokenValidator (Sample.refresh Sample.empty_db Sample.refresh_token)).1
  = [mkValidationError "refresh_token"
       (WithStatus (Msg REFRESH_TOKEN_IS_USED_OR_NOT_EXIST) 401)].
Proof. vm_compute. reflexivity. Qed.

Example refresh_rejects_empty_token :
  (refreshTokenValidator (Sample.refresh Sample.db "  ")).1
  = [mkValidationError "refresh_token"
       (WithStatus (Msg REFRESH_TOKEN_IS_REQUIRED) 401)].
Proof. vm_compute. reflexivity. Qed.

Example access_accepts_any_scheme :
  (accessTokenValidator (Sample.protected ("Basic " ++ Sample.access_token))).1
  = [].
Proof. vm_compute. reflexivity. Qed.

Example access_rejects_tab_separated_token :
  Spec.second_chunk (Some Sample.tab_header) = Some Sample.access_token
  ∧ verifies Sample.access_token JWT_SECRET_ACCESS_TOKEN
  ∧ (accessTokenValidator (Sample.protected Sample.tab_header)).1
    = [mkValidationError "authorization"
         (WithStatus (Msg ACCESS_TOKEN_IS_REQUIRED) 401)].
Proof.
  split; [by vm_compute|]. split; [|by vm_compute].
  eexists. vm_compute. reflexivity.
Qed.

Example login_rejects_weak_password_of_existing_user :
  (loginValidator (Sample.login "b@x.com" "weak")).1
  = [mkValidationError "password" (MessageOnly (Msg PASSWORD_LENGTH));
     mkValidationError "password" (MessageOnly (Msg PASSWORD_MUST_BE_STRONG))].
Proof. vm_compute. reflexivity. Qed.

End Examples.

(** ** Where the code departs from a statement of the specification *)

(** An empty refresh token fails verification and is rejected, but with
    REFRESH_TOKEN_IS_REQUIRED: the three parts of the statement cannot hold
    together for every token string. *)
Lemma refreshTokenValidator_empty_token_is_required :
  ¬ (∀ (I : Imports) (w : World LogoutRequestBody.t),
       let token := submitted_refresh_token w in
       (accepted (refreshTokenValidator w) →
        verifies token JWT_SECRET_REFRESH_TOKEN
        ∧ stored_refresh_token (database w) token)
       ∧ (verifies token JWT_SECRET_REFRESH_TOKEN →
          ¬ stored_refresh_token (database w) token →
          rejected_with "refresh_token" REFRESH_TOKEN_IS_USED_OR_NOT_EXIST
                        UNAUTHORIZED (refreshTokenValidator w))
       ∧ (verification_fails token JWT_SECRET_REFRESH_TOKEN →
          rejected_with "refresh_token" REFRESH_TOKEN_INVALID UNAUTHORIZED
                        (refreshTokenValidator w))).
Proof.
  intros Hclaim.
  destruct (Hclaim Sample.imports (Sample.refresh Sample.db "")) as (_ & _ & Hinvalid).
  assert (@verification_fails Sample.imports "" "refresh-secret") as Hfails
    by (by exists "jwt must be provided").
  apply Hinvalid in Hfails. vm_compute in Hfails. discriminate Hfails.
Qed.

(** A stored token that verifies under the refresh secret is accepted
    although its payload carries the kind of an email-verify token. *)
Lemma refreshTokenValidator_accepts_mislabelled_token :
  ¬ (∀ (I : Imports) (w : World LogoutRequestBody.t) (payload : TokenPayload.t),
       accepted (refreshTokenValidator w) →
       verifyToken (submitted_refresh_token w) JWT_SECRET_REFRESH_TOKEN
       = inr payload →
       TokenPayload.token_type payload = TokenType.RefreshToken).
Proof.
  intros Hclaim.
  specialize (Hclaim Sample.imports
                (Sample.refresh Sample.db Sample.mislabelled_token)
                (TokenPayload.mk Sample.alice_id TokenType.EmailVerifyToken)).
  assert (TokenType.EmailVerifyToken = TokenType.RefreshToken) as Habsurd.
  { apply Hclaim; vm_compute; reflexivity. }
  discriminate Habsurd.
Qed.

(** A user with the submitted email and password hash exists, and the login
    middleware still rejects the request: the password fails the checks of
    the form. *)
Lemma loginValidator_rejects_matching_credentials :
  ¬ (∀ (I : Imports) (w : World LoginRequestBody.t),
       accepted (loginValidator w) ↔
       credentials_match (database w)
         (JS.trim (LoginRequestBody.email (body (req w))))
         (hashPassword (LoginRequestBody.password (body (req w))))).
Proof.
  intros Hclaim.
  destruct (Hclaim Sample.imports (Sample.login "b@x.com" "weak")) as [_ Haccepts].
  assert (@accepted LoginRequestBody.t
            (@loginValidator Sample.imports (Sample.login "b@x.com" "weak")))
    as Hnil.
  { apply Haccepts. exists Sample.bob. split; [|by vm_compute].
    apply list_elem_of_In. right. left. reflexivity. }
  vm_compute in Hnil. discriminate Hnil.
Qed.



(** The store holds a user whose email is written with a space before and
    after it; a registration with that very email finds no user, since it
    looks up the trimmed email, and records no EMAIL_ALREADY_EXISTS. *)
Lemma registerValidator_misses_padded_stored_email :
  ¬ (∀ (I : Imports) (w : World RegisterRequestBody.t),
       email_exists (database w) (RegisterRequestBody.email (body (req w))) →
       mkValidationError "email" (MessageOnly (Msg EMAIL_ALREADY_EXISTS))
         ∈ (registerValidator w).1).
Proof.
  intros Hclaim.
  specialize (Hclaim Sample.imports Sample.register_padded).
  assert (mkValidationError "email" (MessageOnly (Msg EMAIL_ALREADY_EXISTS))
            ∈ (@registerValidator Sample.imports Sample.register_padded).1)
    as Helem.
  { apply Hclaim. exists Sample.carol. split; [|reflexivity].
    apply list_elem_of_In. left. reflexivity. }
  vm_compute in Helem. apply list_elem_of_In in Helem. destruct Helem.
Qed.

(** ** The statements above on the sample requests *)

Lemma refreshTokenValidator_verdict_witness :
  submitted_refresh_token (Sample.refresh Sample.db Sample.refresh_token) ≠ ""
  ∧ accepted (@refreshTokenValidator Sample.imports
                (Sample.refresh Sample.db Sample.refresh_token))
  ∧ rejected_with "refresh_token" REFRESH_TOKEN_IS_REQUIRED UNAUTHORIZED
      (@refreshTokenValidator Sample.imports (Sample.refresh Sample.db "  ")).
Proof.
  assert (submitted_refresh_token (Sample.refresh Sample.db Sample.refresh_token)
          ≠ "") as Hne by (vm_compute; discriminate).
  split; [exact Hne|]. split.
  - apply (proj1 (proj2 (@refreshTokenValidator_verdict Sample.imports _) Hne)).
    split.
    + eexists. vm_compute. reflexivity.
    + exists (RefreshToken.mk Sample.refresh_token Sample.alice_id).
      split; [|vm_compute; reflexivity].
      apply list_elem_of_In. left. reflexivity.
  - apply (proj1 (@refreshTokenValidator_verdict Sample.imports
                    (Sample.refresh Sample.db "  "))).
    vm_compute. reflexivity.
Defined.

Lemma refreshTokenValidator_ignores_kind_witness :
  accepted (@refreshTokenValidator Sample.imports
              (Sample.refresh Sample.db Sample.mislabelled_token))
  ∧ decoded_refresh_token
      (req (@refreshTokenValidator Sample.imports
              (Sample.refresh Sample.db Sample.mislabelled_token)).2)
    = Some (TokenPayload.mk Sample.alice_id TokenType.EmailVerifyToken).
Proof.
  apply (@refreshTokenValidator_ignores_kind Sample.imports
           (Sample.refresh Sample.db Sample.mislabelled_token)
           (TokenPayload.mk Sample.alice_id TokenType.EmailVerifyToken)).
  - vm_compute. discriminate.
  - vm_compute. reflexivity.
  - exists (RefreshToken.mk Sample.mislabelled_token Sample.alice_id).
    split; [|vm_compute; reflexivity].
    apply list_elem_of_In. right. left. reflexivity.
Defined.


Lemma token_flows_reject_with_refresh_message_witness :
  rejected_with "email_verify_token" REFRESH_TOKEN_INVALID UNAUTHORIZED
    (@emailVerifyTokenValidator Sample.imports (Sample.verify_email "garbage"))
  ∧ rejected_with "forgot_password_token" REFRESH_TOKEN_INVALID UNAUTHORIZED
      (@verifyForgotPasswordTokenValidator Sample.imports
         (Sample.verify_forgot_password "garbage")).
Proof.
  apply (@token_flows_reject_with_refresh_message Sample.imports).
  - vm_compute. discriminate.
  - eexists. vm_compute. reflexivity.
  - vm_compute. discriminate.
  - eexists. vm_compute. reflexivity.
Defined.

Lemma refreshTokenValidator_rejects_email_verify_token_witness :
  ¬ accepted (@refreshTokenValidator Sample.imports
                (Sample.refresh Sample.db Sample.email_verify_token)).
Proof.
  apply (@refreshTokenValidator_rejects_email_verify_token Sample.imports
           Sample.sign (Sample.refresh Sample.db Sample.email_verify_token)
           (TokenPayload.mk Sample.alice_id TokenType.EmailVerifyToken)).
  - exact sample_codec.
  - vm_compute. discriminate.
  - vm_compute. reflexivity.
Defined.

Lemma registerValidator_rejects_existing_email_witness :
  mkValidationError "email" (MessageOnly (Msg EMAIL_ALREADY_EXISTS))
    ∈ (@registerValidator Sample.imports (Sample.register " a@x.com ")).1.
Proof.
  apply (@registerValidator_rejects_existing_email Sample.imports
           (Sample.register " a@x.com ")).
  exists Sample.alice. split; [|vm_compute; reflexivity].
  apply list_elem_of_In. left. reflexivity.
Defined.


(** * Further properties of the middlewares *)

(** ** Trimming *)

Lemma ltrim_head (s : string) :
  JS.ltrim s = ""
  ∨ ∃ c s', JS.ltrim s = String c s' ∧ JS.isWhitespace c = false.
Proof.
  induction s as [|c s IH]; simpl; [by left|].
  destruct (JS.isWhitespace c) eqn:Hc; [done|]. right. eauto.
Qed.

Lemma rtrim_idem (s : string) : JS.rtrim (JS.rtrim s) = JS.rtrim s.
Proof.
  induction s as [|c s IH]; simpl; [done|].
  destruct (JS.isWhitespace c && JS.isEmpty (JS.rtrim s)) eqn:Hc; [done|].
  simpl. by rewrite IH, Hc.
Qed.

Lemma trim_idem (s : string) : JS.trim (JS.trim s) = JS.trim s.
Proof.
  unfold JS.trim. destruct (ltrim_head s) as [-> | (c & s' & -> & Hc)]; [done|].
  simpl. rewrite Hc. simpl. rewrite Hc. simpl. by rewrite Hc, rtrim_idem.
Qed.

Section Whitespace.

Context `{Imports}.

(** A token submitted with whitespace around it is judged as the token
    itself: the refresh, the email-verify and the forgot-password middleware
    record the same errors for a field and for the field trimmed. *)
Theorem token_validators_ignore_surrounding_whitespace {Body : Type}
        (w : World Body) (token : string) :
  (refreshTokenValidator (with_body (LogoutRequestBody.mk (JS.trim token)) w)).1
  = (refreshTokenValidator (with_body (LogoutRequestBody.mk token) w)).1
  ∧ (emailVerifyTokenValidator
       (with_body (EmailVerifyRequestBody.mk (JS.trim token)) w)).1
    = (emailVerifyTokenValidator
         (with_body (EmailVerifyRequestBody.mk token) w)).1
  ∧ (verifyForgotPasswordTokenValidator
       (with_body (VerifyForgotPassWordTokenRequestBody.mk (JS.trim token)) w)).1
    = (verifyForgotPasswordTokenValidator
         (with_body (VerifyForgotPassWordTokenRequestBody.mk token) w)).1.
Proof.
  rewrite !refreshTokenValidator_run, !emailVerifyTokenValidator_run,
    !verifyForgotPasswordTokenValidator_run.
  unfold submitted_refresh_token, submitted_email_verify_token,
    submitted_forgot_password_token. cbn -[JS.trim].
  rewrite !trim_idem. split; [|split].
  - destruct (JS.isEmpty _); [done|].
    destruct (verifyToken _ _); [done|]. by destruct (find _ _).
  - destruct (JS.isEmpty _); [done|]. by destruct (verifyToken _ _).
  - destruct (JS.isEmpty _); [done|].
    destruct (verifyToken _ _); [done|].
    destruct (new_ObjectId _); [done|].
    destruct (find _ _); [|done]. by destruct (bool_decide _).
Qed.

End Whitespace.

(** ** The forgot-password middleware and the user a lookup attaches *)

Section Lookups.

Context `{Imports}.

Lemma forgotPassWordValidator_run (w : World ForgotPassWordRequestBody.t) :
  forgotPassWordValidator w =
    let email := Some (ForgotPassWordRequestBody.email (body (req w))) in
    let found := find (λ u, bool_decide (Some (User.email u) = Std.trim email))
                      (users (database w)) in
    ((failed "email" isEmail_ EMAIL_INVALID email
      ++ failed "email" Std.notEmpty EMAIL_IS_REQUIRED email
      ++ match found with
         | None => [mkValidationError "email" (MessageOnly (Msg USER_NOT_FOUND))]
         | Some _ => []
         end)%list,
     let w' :=
       with_body (ForgotPassWordRequestBody.mk
                    (JS.trim (ForgotPassWordRequestBody.email (body (req w))))) w in
     match found with
     | None => w'
     | Some user => mkWorld (database w) (set_user user (req w'))
     end).
Proof.
  unfold forgotPassWordValidator, forgotPassWordSchema, checkSchema, runChain,
    forgotPassWordValidator_email_custom, select, instance_path, write.
  cbn -[failed].
  unfold mbind, M_bind, users_findOne. cbn -[failed].
  destruct (find _ _) as [user|]; cbn -[failed]; by rewrite !app_nil_r.
Qed.

Lemma email_lookup_is_Some (db : Database) (email : string) :
  is_Some (find (λ u, bool_decide (Some (User.email u) = Std.trim (Some email)))
                (users db))
  ↔ email_exists db (JS.trim email).
Proof.
  rewrite find_is_Some. unfold email_exists, Std.trim. simpl.
  split; intros [u [Hin Hu]]; exists u; split; try done.
  - apply bool_decide_eq_true in Hu. congruence.
  - apply bool_decide_eq_true. by rewrite Hu.
Qed.

(** The forgot-password middleware accepts exactly when the email is a
    non-empty email address and, once trimmed, the email of a user of the
    store; USER_NOT_FOUND is recorded on the email exactly when no user has
    the trimmed email. *)
Theorem forgotPassWordValidator_verdict (w : World ForgotPassWordRequestBody.t) :
  let email := ForgotPassWordRequestBody.email (body (req w)) in
  (accepted (forgotPassWordValidator w) ↔
     email_exists (database w) (JS.trim email)
     ∧ isEmail email = true ∧ email ≠ "")
  ∧ (mkValidationError "email" (MessageOnly (Msg USER_NOT_FOUND))
       ∈ (forgotPassWordValidator w).1
     ↔ ¬ email_exists (database w) (JS.trim email)).
Proof.
  intros email. subst email. unfold accepted.
  rewrite <- email_lookup_is_Some, forgotPassWordValidator_run.
  cbn zeta. simpl fst. split.
  - rewrite !app_nil, !failed_nil, notEmpty_true. unfold isEmail_. simpl.
    destruct (find _ _) as [user|]; split.
    + intros (? & ? & _). eauto.
    + intros (_ & ? & ?). done.
    + intros (_ & _ & [=]).
    + intros ([? [=]] & _).
  - destruct (find _ _) as [user|]; split.
    + intros He.
      repeat (apply elem_of_app in He; destruct He as [He|He]);
        first [ by apply elem_of_nil in He
              | by apply elem_of_failed in He ].
    + intros []. eauto.
    + intros _ [? [=]].
    + intros _. do 2 (apply elem_of_app; right).
      by apply list_elem_of_singleton.
Qed.

(** The forgot-password middleware attaches the user it finds whether or not
    the format checks pass.  After it the request holds the trimmed email;
    when some user has that email, [req.user] is a user of the store with it,
    and when none has, nothing is attached.  Nothing else changes. *)
Theorem forgotPassWordValidator_attaches_user
        (w : World ForgotPassWordRequestBody.t) :
  let email := JS.trim (ForgotPassWordRequestBody.email (body (req w))) in
  let w' := with_body (ForgotPassWordRequestBody.mk email) w in
  (email_exists (database w) email →
   ∃ u, u ∈ users (database w) ∧ User.email u = email
        ∧ (forgotPassWordValidator w).2
          = mkWorld (database w) (set_user u (req w')))
  ∧ (¬ email_exists (database w) email →
     (forgotPassWordValidator w).2 = w').
Proof.
  intros email w'. subst email w'.
  rewrite <- email_lookup_is_Some, forgotPassWordValidator_run.
  cbn zeta. simpl snd.
  destruct (find _ _) as [user|] eqn:Hfind; split.
  - intros _. exists user.
    apply find_Some_elem in Hfind as [Hin Hu].
    apply bool_decide_eq_true in Hu. unfold Std.trim in Hu. simpl in Hu.
    split; [done|]. split; [congruence | done].
  - intros []. eauto.
  - intros [? [=]].
  - done.
Qed.

(** The login middleware attaches the user it finds whether or not the
    format checks pass.  After it the request holds the trimmed email; when
    some user has that email and the hash of the password, [req.user] is a
    user of the store with that email and that hash, and when none has,
    nothing is attached.  Nothing else changes. *)
Theorem loginValidator_attaches_user (w : World LoginRequestBody.t) :
  let email := JS.trim (LoginRequestBody.email (body (req w))) in
  let password := LoginRequestBody.password (body (req w)) in
  let hash := hashPassword password in
  let w' := with_body (LoginRequestBody.mk email password) w in
  (credentials_match (database w) email hash →
   ∃ u, u ∈ users (database w) ∧ User.email u = email ∧ User.password u = hash
        ∧ (loginValidator w).2 = mkWorld (database w) (set_user u (req w')))
  ∧ (¬ credentials_match (database w) email hash →
     (loginValidator w).2 = w').
Proof.
  intros email password hash w'. subst email password hash w'.
  rewrite <- login_lookup_is_Some, loginValidator_run. cbn zeta. simpl snd.
  destruct (login_lookup w) as [user|] eqn:Hfind; split.
  - intros _. exists user. unfold login_lookup in Hfind.
    apply find_Some_elem in Hfind as [Hin Hu].
    apply bool_decide_eq_true in Hu as [[= Hemail] Hhash]. done.
  - intros []. eauto.
  - intros [? [=]].
  - done.
Qed.

End Lookups.

Section Registration.

Context `{Imports}.

Lemma length_pos_nonempty (s : string) : (1 ≤ String.length s)%nat → s ≠ "".
Proof. destruct s; simpl; [lia | done]. Qed.

(** The registration middleware accepts exactly when the name is 1 to 100
    long, the email is a non-empty email address that, once trimmed, no user
    of the store has, the password is 6 to 50 long and strong, the
    confirmation equals the password and the date of birth is an ISO 8601
    date. *)
Theorem registerValidator_verdict (w : World RegisterRequestBody.t) :
  let b := body (req w) in
  accepted (registerValidator w) ↔
    (1 ≤ String.length (RegisterRequestBody.name b)
     ∧ String.length (RegisterRequestBody.name b) ≤ 100)%nat
    ∧ isEmail (RegisterRequestBody.email b) = true
    ∧ RegisterRequestBody.email b ≠ ""
    ∧ ¬ email_exists (database w) (JS.trim (RegisterRequestBody.email b))
    ∧ (6 ≤ String.length (RegisterRequestBody.password b)
       ∧ String.length (RegisterRequestBody.password b) ≤ 50)%nat
    ∧ isStrongPassword (RegisterRequestBody.password b) = true
    ∧ RegisterRequestBody.confirm_password b = RegisterRequestBody.password b
    ∧ isISO8601 (RegisterRequestBody.date_of_birth b) = true.
Proof.
  intros b. subst b. unfold accepted.
  rewrite <- email_lookup_is_Some, registerValidator_run. cbn zeta. simpl fst.
  rewrite !app_nil, !failed_nil, !notEmpty_true, !isLength_true.
  unfold isEmail_, isStrongPassword_, isISO8601_, Std.isString. simpl.
  destruct (find _ _) as [u|].
  { split; [by intros (_ & _ & _ & _ & [=] & _)|].
    intros (_ & _ & _ & Hnone & _). destruct Hnone. eauto. }
  case_bool_decide as Hneq.
  { split; [by intros (_ & _ & _ & _ & _ & _ & _ & _ & _ & _ & _ & [=] & _)|].
    intros (_ & _ & _ & _ & _ & _ & Heq & _). destruct Hneq. congruence. }
  assert (RegisterRequestBody.confirm_password (body (req w))
          = RegisterRequestBody.password (body (req w))) as Heq.
  { congruence. }
  split.
  - intros (_ & ? & ? & ? & _ & _ & ? & ? & _ & _ & _ & _ & ?).
    repeat split; try done; try lia; by intros [? [=]].
  - intros (Hname & ? & ? & _ & Hpassword & ? & _ & ?). rewrite Heq.
    repeat split; try done; try lia; apply length_pos_nonempty; lia.
Qed.
(** The two [custom] checks of the registration fire exactly on their
    condition: EMAIL_ALREADY_EXISTS is recorded exactly when some user has the
    trimmed email, CONFIRM_PASSWORD_NOT_MATCH exactly when the confirmation
    differs from the password, both compared as submitted. *)
Theorem registerValidator_custom_errors (w : World RegisterRequestBody.t) :
  let b := body (req w) in
  (mkValidationError "email" (MessageOnly (Msg EMAIL_ALREADY_EXISTS))
     ∈ (registerValidator w).1
   ↔ email_exists (database w) (JS.trim (RegisterRequestBody.email b)))
  ∧ (mkValidationError "confirm_password"
       (MessageOnly (Msg CONFIRM_PASSWORD_NOT_MATCH)) ∈ (registerValidator w).1
     ↔ RegisterRequestBody.confirm_password b ≠ RegisterRequestBody.password b).
Proof.
  intros b. subst b.
  rewrite <- email_lookup_is_Some, registerValidator_run. cbn zeta. simpl fst.
  split.
  - destruct (find _ _) as [u|]; split; [eauto| | |by intros [? [=]]].
    + intros _.
      repeat first
        [ by (apply elem_of_app; left; apply list_elem_of_singleton)
        | apply elem_of_app; right ].
    + intros He. exfalso.
      repeat (apply elem_of_app in He; destruct He as [He|He]);
        first [ by apply elem_of_nil in He
              | by apply elem_of_failed in He
              | case_bool_decide;
                  first [ by apply elem_of_nil in He
                        | by apply list_elem_of_singleton in He ] ].
  - case_bool_decide as Hneq; split.
    + intros _. congruence.
    + intros _.
      repeat first
        [ by (apply elem_of_app; left; apply list_elem_of_singleton)
        | apply elem_of_app; right ].
    + intros He. exfalso.
      repeat (apply elem_of_app in He; destruct He as [He|He]);
        first [ by apply elem_of_nil in He
              | by apply elem_of_failed in He
              | destruct (find _ _);
                  first [ by apply elem_of_nil in He
                        | by apply list_elem_of_singleton in He ] ].
    + intros Hne. destruct Hne. congruence.
Qed.

End Registration.

(** ** What a middleware attaches to the request *)

Section Attachments.

Context `{Imports}.

(** The registration middleware and the forgot-password-token middleware
    attach nothing: whatever the request and the store, and whether they
    accept or not, the world after them is the world before with the
    sanitized fields trimmed (name and email; the token).  A handler after
    [verifyForgotPasswordTokenValidator] finds no decoded token on the
    request. *)
Theorem validators_that_attach_nothing :
  (∀ w, (registerValidator w).2
        = with_body
            (RegisterRequestBody.mk
               (JS.trim (RegisterRequestBody.name (body (req w))))
               (JS.trim (RegisterRequestBody.email (body (req w))))
               (RegisterRequestBody.password (body (req w)))
               (RegisterRequestBody.confirm_password (body (req w)))
               (RegisterRequestBody.date_of_birth (body (req w)))) w)
  ∧ (∀ w, (verifyForgotPasswordTokenValidator w).2
          = with_body (VerifyForgotPassWordTokenRequestBody.mk
                         (submitted_forgot_password_token w)) w).
Proof.
  split; intros w.
  - by rewrite registerValidator_run.
  - rewrite verifyForgotPasswordTokenValidator_run. cbn zeta.
    destruct (JS.isEmpty _); [done|].
    destruct (verifyToken _ _); [done|].
    destruct (new_ObjectId _); [done|].
    destruct (find _ _); [|done]. by destruct (bool_decide _).
Qed.

(** The refresh token middleware attaches something only when it accepts.
    After it the request holds the trimmed token; a rejected request is
    otherwise as it was, and an accepted one gets as [decoded_refresh_token]
    the payload that the trimmed token decodes to under the refresh secret,
    and nothing else. *)
Theorem refreshTokenValidator_attaches_decoded_token
        (w : World LogoutRequestBody.t) :
  let w' := with_body (LogoutRequestBody.mk (submitted_refresh_token w)) w in
  (¬ accepted (refreshTokenValidator w) → (refreshTokenValidator w).2 = w')
  ∧ (accepted (refreshTokenValidator w) →
     ∃ payload,
       verifyToken (submitted_refresh_token w) JWT_SECRET_REFRESH_TOKEN
       = inr payload
       ∧ (refreshTokenValidator w).2
         = mkWorld (database w) (set_decoded_refresh_token payload (req w'))).
Proof.
  intros w'. subst w'.
  unfold accepted. rewrite refreshTokenValidator_run. cbn zeta.
  destruct (JS.isEmpty _); [by split|].
  destruct (verifyToken _ _) as [e|payload]; [by split|].
  destruct (find _ _); [|by split].
  split; [by intros []|]. intros _. by exists payload.
Qed.

(** The email-verify middleware: a token that is empty once trimmed is
    rejected with EMAIL_VERIFY_TOKEN_IS_REQUIRED at 401; any other token is
    accepted exactly when it verifies under the email-verify secret, and
    then the request holds the trimmed token and, as
    [decoded_email_verify_token], its payload, and nothing else changes.  No
    user is looked up. *)
Theorem emailVerifyTokenValidator_verdict (w : World EmailVerifyRequestBody.t) :
  let token := submitted_email_verify_token w in
  let w' := with_body (EmailVerifyRequestBody.mk token) w in
  (token = "" →
   rejected_with "email_verify_token" EMAIL_VERIFY_TOKEN_IS_REQUIRED
                 UNAUTHORIZED (emailVerifyTokenValidator w))
  ∧ (token ≠ "" →
     (accepted (emailVerifyTokenValidator w)
      ↔ verifies token JWT_SECRET_EMAIL_VERIFY_TOKEN)
     ∧ (∀ payload,
          verifyToken token JWT_SECRET_EMAIL_VERIFY_TOKEN = inr payload →
          emailVerifyTokenValidator w
          = ([], mkWorld (database w)
                         (set_decoded_email_verify_token payload (req w'))))).
Proof.
  intros token w'. subst w'. unfold accepted, rejected_with, verifies.
  rewrite emailVerifyTokenValidator_run. cbn zeta. fold token. split.
  - by intros ->.
  - intros Hne%isEmpty_false. rewrite Hne.
    destruct (verifyToken token _) as [e|payload]; split.
    + split; [done | by intros [? ?]].
    + by intros ? [=].
    + split; [eauto | done].
    + by intros ? [= ->].
Qed.

(** The outcome of the email-verify middleware does not depend on the
    database: on the same request, two stores give the same errors and the
    same request afterwards.  Whether the subject of the token is a user of
    the store plays no part. *)
Theorem emailVerifyTokenValidator_store_independent
        (r : Request EmailVerifyRequestBody.t) (db1 db2 : Database) :
  (emailVerifyTokenValidator (mkWorld db1 r)).1
  = (emailVerifyTokenValidator (mkWorld db2 r)).1
  ∧ req (emailVerifyTokenValidator (mkWorld db1 r)).2
    = req (emailVerifyTokenValidator (mkWorld db2 r)).2.
Proof.
  rewrite !emailVerifyTokenValidator_run.
  unfold submitted_email_verify_token. simpl.
  destruct (JS.isEmpty _); [done|]. by destruct (verifyToken _ _).
Qed.

End Attachments.

(** ** Errors of the forgot-password-token middleware and of the catch clause *)

Section Failures.

Context `{Imports}.

Lemma user_lookup_is_Some (db : Database) (oid : ObjectId) :
  is_Some (find (λ u, bool_decide (User._id u = oid)) (users db))
  ↔ user_exists db oid.
Proof.
  rewrite find_is_Some. unfold user_exists.
  split; intros [u [Hin Hu]]; exists u; split; try done.
  - by apply bool_decide_eq_true in Hu.
  - by apply bool_decide_eq_true.
Qed.

(** A forgot-password token that decodes, with a well-formed subject that is
    no user of the store, is rejected with USER_NOT_FOUND at 401. *)
Theorem verifyForgotPasswordTokenValidator_user_not_found
        (w : World VerifyForgotPassWordTokenRequestBody.t)
        (payload : TokenPayload.t) (oid : ObjectId) :
  let token := submitted_forgot_password_token w in
  token ≠ "" →
  verifyToken token JWT_SECRET_FORGOT_PASSWORD_TOKEN = inr payload →
  new_ObjectId (TokenPayload.user_id payload) = inr oid →
  ¬ user_exists (database w) oid →
  rejected_with "forgot_password_token" USER_NOT_FOUND UNAUTHORIZED
                (verifyForgotPasswordTokenValidator w).
Proof.
  intros token Hne%isEmpty_false Hv Hid Hnone. unfold rejected_with.
  rewrite verifyForgotPasswordTokenValidator_run. cbn zeta. fold token.
  rewrite Hne, Hv, Hid.
  destruct (find _ _) as [u|] eqn:Hfind; [|done].
  destruct Hnone. apply user_lookup_is_Some. rewrite Hfind. eauto.
Qed.

(** A forgot-password token that decodes but whose subject is no valid
    identifier: the error of the [ObjectId] constructor leaves the catch
    clause as it is, so the request is rejected with the message of that
    error and without the status 401 of the other failures. *)
Theorem verifyForgotPasswordTokenValidator_malformed_subject
        (w : World VerifyForgotPassWordTokenRequestBody.t)
        (payload : TokenPayload.t) (m : Message) :
  let token := submitted_forgot_password_token w in
  token ≠ "" →
  verifyToken token JWT_SECRET_FORGOT_PASSWORD_TOKEN = inr payload →
  new_ObjectId (TokenPayload.user_id payload) = inl (Error m) →
  (verifyForgotPasswordTokenValidator w).1
  = [mkValidationError "forgot_password_token" (MessageOnly m)].
Proof.
  intros token Hne%isEmpty_false Hv Hid.
  rewrite verifyForgotPasswordTokenValidator_run. cbn zeta. fold token.
  by rewrite Hne, Hv, Hid.
Qed.

(** An error of [verifyToken] that is no [JsonWebTokenError] passes the
    catch clause of the refresh, the email-verify and the
    forgot-password-token middleware unchanged: the request is rejected with
    what was thrown, not with REFRESH_TOKEN_INVALID, and nothing is attached:
    the world is as it was, with the token trimmed. *)
Theorem catch_rethrows_other_errors (e : Thrown) :
  instanceof_JsonWebTokenError e = false →
  (∀ w, submitted_refresh_token w ≠ "" →
        verifyToken (submitted_refresh_token w) JWT_SECRET_REFRESH_TOKEN = inl e →
        refreshTokenValidator w
        = ([mkValidationError "refresh_token" (msg_of_thrown e)],
           with_body (LogoutRequestBody.mk (submitted_refresh_token w)) w))
  ∧ (∀ w, submitted_email_verify_token w ≠ "" →
          verifyToken (submitted_email_verify_token w)
                      JWT_SECRET_EMAIL_VERIFY_TOKEN = inl e →
          emailVerifyTokenValidator w
          = ([mkValidationError "email_verify_token" (msg_of_thrown e)],
             with_body (EmailVerifyRequestBody.mk
                          (submitted_email_verify_token w)) w))
  ∧ (∀ w, submitted_forgot_password_token w ≠ "" →
          verifyToken (submitted_forgot_password_token w)
                      JWT_SECRET_FORGOT_PASSWORD_TOKEN = inl e →
          verifyForgotPasswordTokenValidator w
          = ([mkValidationError "forgot_password_token" (msg_of_thrown e)],
             with_body (VerifyForgotPassWordTokenRequestBody.mk
                          (submitted_forgot_password_token w)) w)).
Proof.
  intros He. repeat split; intros w Hne%isEmpty_false Hv.
  - rewrite refreshTokenValidator_run. cbn zeta.
    rewrite Hne, Hv. unfold caught. by rewrite He.
  - rewrite emailVerifyTokenValidator_run. cbn zeta.
    rewrite Hne, Hv. unfold caught. by rewrite He.
  - rewrite verifyForgotPasswordTokenValidator_run. cbn zeta.
    rewrite Hne, Hv. unfold caught. by rewrite He.
Qed.

(** The four token middlewares record at most one error for a request. *)
Theorem token_validators_record_one_error :
  (∀ (Body : Type) (J : JsonObject Body) (w : World Body),
     (List.length (accessTokenValidator w).1 ≤ 1)%nat)
  ∧ (∀ w, (List.length (refreshTokenValidator w).1 ≤ 1)%nat)
  ∧ (∀ w, (List.length (emailVerifyTokenValidator w).1 ≤ 1)%nat)
  ∧ (∀ w, (List.length (verifyForgotPasswordTokenValidator w).1 ≤ 1)%nat).
Proof.
  repeat split; intros.
  - rewrite accessTokenValidator_run. unfold verify_access_token.
    destruct (JS.split " " _ !! 1%nat) as [[|c token]|]; simpl; [lia| |lia].
    destruct (verifyToken _ _); simpl; lia.
  - rewrite refreshTokenValidator_run. cbn zeta.
    destruct (JS.isEmpty _); simpl; [lia|].
    destruct (verifyToken _ _); simpl; [lia|].
    destruct (find _ _); simpl; lia.
  - rewrite emailVerifyTokenValidator_run. cbn zeta.
    destruct (JS.isEmpty _); simpl; [lia|].
    destruct (verifyToken _ _); simpl; lia.
  - rewrite verifyForgotPasswordTokenValidator_run. cbn zeta.
    destruct (JS.isEmpty _); simpl; [lia|].
    destruct (verifyToken _ _); simpl; [lia|].
    destruct (new_ObjectId _); simpl; [lia|].
    destruct (find _ _); simpl; [|lia].
    destruct (bool_decide _); simpl; lia.
Qed.

End Failures.

(** ** More on the access token middleware *)

Section AccessTokenHeader.

Context `{Imports} {Body : Type} `{!JsonObject Body}.

(** A request without an [Authorization] header, or with one that is empty
    or only whitespace, is rejected with ACCESS_TOKEN_IS_REQUIRED at 401,
    recorded under the lower-case name of the header; the request holds an
    empty [authorization] header afterwards and nothing else changes. *)
Theorem accessTokenValidator_missing_header (w : World Body) :
  JS.trim (authorization_header w) = "" →
  accessTokenValidator w
  = ([mkValidationError "authorization"
        (WithStatus (Msg ACCESS_TOKEN_IS_REQUIRED) UNAUTHORIZED)],
     with_authorization "" w).
Proof.
  intros Hempty. rewrite accessTokenValidator_run. cbn zeta.
  by rewrite Hempty.
Qed.

(** What follows the second chunk of the header is never looked at: a
    header that reads, once trimmed, a scheme word, a space, a token, a space
    and anything else is processed as that token, on the request with the
    header trimmed. *)
Theorem accessTokenValidator_ignores_further_chunks
        (w : World Body) (scheme token rest : string) :
  JS.trim (authorization_header w)
  = scheme ++ String " " (token ++ String " " rest) →
  JS.any (λ c, Ascii.eqb c " ") scheme = false →
  JS.any (λ c, Ascii.eqb c " ") token = false →
  token ≠ "" →
  accessTokenValidator w
  = verify_access_token token
      (with_authorization (JS.trim (authorization_header w)) w).
Proof.
  intros Hheader Hscheme Htoken Hne.
  rewrite accessTokenValidator_run. cbn zeta.
  rewrite Hheader at 1. rewrite !split_app by done. simpl.
  by destruct token.
Qed.

(** Whitespace around the header value is ignored: the middleware records
    the same errors for a header and for the header trimmed. *)
Theorem accessTokenValidator_ignores_surrounding_whitespace
        (w : World Body) (header : string) :
  (accessTokenValidator (with_authorization (JS.trim header) w)).1
  = (accessTokenValidator (with_authorization header w)).1.
Proof.
  rewrite !accessTokenValidator_run. unfold authorization_header.
  cbn -[JS.trim]. rewrite !lookup_insert_eq. cbn -[JS.trim].
  rewrite trim_idem.
  destruct (JS.split " " _ !! 1%nat) as [[|c token]|]; [done| |done].
  unfold verify_access_token. by destruct (verifyToken _ _).
Qed.

End AccessTokenHeader.

(** ** The further properties on the sample requests *)

Lemma forgotPassWordValidator_attaches_user_witness :
  ∃ u, u ∈ users Sample.db ∧ User.email u = "a@x.com"
       ∧ (@forgotPassWordValidator Sample.imports
            (Sample.forgot_password " a@x.com ")).2
         = mkWorld Sample.db
                   (set_user u (req (Sample.forgot_password "a@x.com"))).
Proof.
  apply (proj1 (@forgotPassWordValidator_attaches_user Sample.imports
                  (Sample.forgot_password " a@x.com "))).
  exists Sample.alice. split; [|vm_compute; reflexivity].
  apply list_elem_of_In. left. reflexivity.
Defined.

Lemma loginValidator_attaches_user_witness :
  ∃ u, u ∈ users Sample.db ∧ User.email u = "b@x.com"
       ∧ User.password u = "sha256:weak"
       ∧ (@loginValidator Sample.imports (Sample.login " b@x.com" "weak")).2
         = mkWorld Sample.db (set_user u (req (Sample.login "b@x.com" "weak"))).
Proof.
  apply (proj1 (@loginValidator_attaches_user Sample.imports
                  (Sample.login " b@x.com" "weak"))).
  exists Sample.bob. split; [|split; vm_compute; reflexivity].
  apply list_elem_of_In. right. left. reflexivity.
Defined.

Lemma refreshTokenValidator_attaches_decoded_token_witness :
  (@refreshTokenValidator Sample.imports
     (Sample.refresh Sample.empty_db (" " ++ Sample.refresh_token))).2
  = Sample.refresh Sample.empty_db Sample.refresh_token.
Proof.
  apply (proj1 (@refreshTokenValidator_attaches_decoded_token Sample.imports
                  (Sample.refresh Sample.empty_db
                                  (" " ++ Sample.refresh_token)))).
  vm_compute. discriminate.
Defined.

Lemma emailVerifyTokenValidator_verdict_witness :
  accepted (@emailVerifyTokenValidator Sample.imports
              (Sample.verify_email Sample.email_verify_token))
  ∧ rejected_with "email_verify_token" EMAIL_VERIFY_TOKEN_IS_REQUIRED
      UNAUTHORIZED
      (@emailVerifyTokenValidator Sample.imports (Sample.verify_email " ")).
Proof.
  split.
  - assert (submitted_email_verify_token
              (Sample.verify_email Sample.email_verify_token) ≠ "") as Hne
      by (vm_compute; discriminate).
    apply (proj1 (proj2 (@emailVerifyTokenValidator_verdict Sample.imports
                           (Sample.verify_email Sample.email_verify_token))
                        Hne)).
    eexists. vm_compute. reflexivity.
  - apply (proj1 (@emailVerifyTokenValidator_verdict Sample.imports
                    (Sample.verify_email " "))).
    vm_compute. reflexivity.
Defined.

Lemma verifyForgotPasswordTokenValidator_user_not_found_witness :
  rejected_with "forgot_password_token" USER_NOT_FOUND UNAUTHORIZED
    (@verifyForgotPasswordTokenValidator Sample.imports
       (Sample.verify_forgot_password Sample.stranger_token)).
Proof.
  apply (@verifyForgotPasswordTokenValidator_user_not_found Sample.imports
           (Sample.verify_forgot_password Sample.stranger_token)
           (TokenPayload.mk "64b7f0c2a1d3e4f5a6b7c8ff"
                            TokenType.ForgotPasswordToken)
           "64b7f0c2a1d3e4f5a6b7c8ff").
  - vm_compute. discriminate.
  - vm_compute. reflexivity.
  - vm_compute. reflexivity.
  - intros [u [Hin Hu]]. apply list_elem_of_In in Hin.
    destruct Hin as [<- | [<- | []]]; vm_compute in Hu; discriminate Hu.
Defined.

Lemma verifyForgotPasswordTokenValidator_malformed_subject_witness :
  (@verifyForgotPasswordTokenValidator Sample.imports
     (Sample.verify_forgot_password Sample.malformed_subject_token)).1
  = [mkValidationError "forgot_password_token"
       (MessageOnly (Text "input must be a 24 character hex string"))].
Proof.
  apply (@verifyForgotPasswordTokenValidator_malformed_subject Sample.imports
           (Sample.verify_forgot_password Sample.malformed_subject_token)
           (TokenPayload.mk "alice" TokenType.ForgotPasswordToken)).
  - vm_compute. discriminate.
  - vm_compute. reflexivity.
  - vm_compute. reflexivity.
Defined.

Lemma catch_rethrows_other_errors_witness :
  @refreshTokenValidator Sample.failing_imports
    (Sample.refresh Sample.db (Sample.refresh_token ++ " "))
  = ([mkValidationError "refresh_token"
        (MessageOnly (Text "secret must be provided"))],
     Sample.refresh Sample.db Sample.refresh_token).
Proof.
  rewrite (proj1 (@catch_rethrows_other_errors Sample.failing_imports
                    (Error (Text "secret must be provided")) eq_refl)
             (Sample.refresh Sample.db (Sample.refresh_token ++ " "))).
  - vm_compute. reflexivity.
  - vm_compute. discriminate.
  - vm_compute. reflexivity.
Defined.

Lemma accessTokenValidator_missing_header_witness :
  @accessTokenValidator Sample.imports unit _
    (mkWorld Sample.db (Sample.request ∅ tt))
  = ([mkValidationError "authorization"
        (WithStatus (Msg ACCESS_TOKEN_IS_REQUIRED) UNAUTHORIZED)],
     Sample.protected "").
Proof.
  rewrite (@accessTokenValidator_missing_header Sample.imports unit _
             (mkWorld Sample.db (Sample.request ∅ tt))).
  - vm_compute. reflexivity.
  - vm_compute. reflexivity.
Defined.

Lemma accessTokenValidator_ignores_further_chunks_witness :
  @accessTokenValidator Sample.imports unit _
    (Sample.protected ("Bearer " ++ Sample.access_token ++ " and more "))
  = @verify_access_token Sample.imports unit Sample.access_token
      (Sample.protected ("Bearer " ++ Sample.access_token ++ " and more")).
Proof.
  rewrite (@accessTokenValidator_ignores_further_chunks Sample.imports unit _
             (Sample.protected
                ("Bearer " ++ Sample.access_token ++ " and more "))
             "Bearer" Sample.access_token "and more").
  - vm_compute. reflexivity.
  - vm_compute. reflexivity.
  - vm_compute. reflexivity.
  - vm_compute. reflexivity.
  - discriminate.
Defined.
